(** * optidash-node: the options builder and the request dispatcher

    A shallow embedding of [lib/index.js], [lib/operations.js] and
    [lib/client.js].  JavaScript values are a small inductive type, the
    mutable [this.options] object is a record threaded through the builder
    methods, and [client.sendRequest] is a function that returns the set of
    listeners it has registered; the asynchronous part of a dispatch is a
    step function over the events Node can deliver to those listeners. *)

From Stdlib.Strings Require Import Byte Ascii.
From stdpp Require Import base strings list gmap.

Open Scope string_scope.
Open Scope list_scope.
Set Warnings "-register-all".

(** ** JavaScript values *)

(** Numbers are restricted to integers: the code only tests them with
    [typeof] and for truthiness. *)
Inductive value :=
  | VUndefined
  | VNull
  | VBool (b : bool)
  | VNum (n : Z)
  | VStr (s : string)
  | VFun (name : string)
  | VStream (id : nat)
  | VBuffer (bytes : list byte)
  | VArr (items : list value)
  | VObj (fields : list (string * value)).

(** Exceptions and error objects.  [Error m] is [new Error(m)]: the
    argument is kept as passed (its [message] property is the argument
    itself whenever the argument is a string).  [TypeError] is raised by the
    runtime, [SystemError] stands for the error objects emitted by [fs] and
    by the HTTP client. *)
Inductive js_error :=
  | Error (message : value)
  | TypeError (message : string)
  | SystemError (code : string).

Inductive result (A : Type) :=
  | Ok (a : A)
  | Throw (e : js_error).
Arguments Ok {A} a.
Arguments Throw {A} e.

Definition typeof (v : value) : string :=
  match v with
  | VUndefined => "undefined"
  | VNull => "object"
  | VBool _ => "boolean"
  | VNum _ => "number"
  | VStr _ => "string"
  | VFun _ => "function"
  | VStream _ | VBuffer _ | VArr _ | VObj _ => "object"
  end.

(** ToBoolean *)
Definition truthy (v : value) : bool :=
  match v with
  | VUndefined | VNull => false
  | VBool b => b
  | VNum n => negb (n =? 0)%Z
  | VStr s => negb (String.eqb s "")
  | _ => true
  end.

Definition truthy_str (s : option string) : bool :=
  match s with
  | Some s => negb (String.eqb s "")
  | None => false
  end.

Definition truthy_opt (v : option value) : bool :=
  match v with
  | Some v => truthy v
  | None => false
  end.

(** [file instanceof stream.Stream] *)
Definition instanceof_Stream (v : value) : bool :=
  match v with
  | VStream _ => true
  | _ => false
  end.

Definition is_string (v : value) : bool := String.eqb (typeof v) "string".
Definition is_function (v : value) : bool := String.eqb (typeof v) "function".
Definition is_object (v : value) : bool := String.eqb (typeof v) "object".

Fixpoint assoc (k : string) (l : list (string * value)) : value :=
  match l with
  | [] => VUndefined
  | (k', v) :: l => if String.eqb k k' then v else assoc k l
  end.

(** Property read [v.k], for the two keys the client reads ([success] and
    [message]): reading a property of [null] or [undefined] throws, a plain
    object yields the field or [undefined], and no other value carries
    either key. *)
Definition get (v : value) (k : string) : result value :=
  match v with
  | VUndefined | VNull =>
      Throw (TypeError ("Cannot read properties of " +:+
                        (if v is VNull then "null" else "undefined")))
  | VObj fields => Ok (assoc k fields)
  | _ => Ok VUndefined
  end.

(** ** The options record ([this.options]) *)

Record options := mkOptions {
  o_key : string;
  o_request : gmap string value;
  o_errorMessage : option string;
  o_withUpload : bool;
  o_withFetch : bool;
  o_file : value;
  o_proxy : option string;
  o_toJSON : bool;
  o_toFile : bool;
  o_toBuffer : bool;
  o_outputFile : value
}.

Definition set_errorMessage (m : string) (o : options) : options :=
  mkOptions (o_key o) (o_request o) (Some m) (o_withUpload o) (o_withFetch o)
    (o_file o) (o_proxy o) (o_toJSON o) (o_toFile o) (o_toBuffer o) (o_outputFile o).

Definition set_request (k : string) (v : value) (o : options) : options :=
  mkOptions (o_key o) (<[k := v]> (o_request o)) (o_errorMessage o)
    (o_withUpload o) (o_withFetch o) (o_file o) (o_proxy o) (o_toJSON o)
    (o_toFile o) (o_toBuffer o) (o_outputFile o).

Definition set_upload (f : value) (o : options) : options :=
  mkOptions (o_key o) (o_request o) (o_errorMessage o) true (o_withFetch o)
    f (o_proxy o) (o_toJSON o) (o_toFile o) (o_toBuffer o) (o_outputFile o).

Definition set_withFetch (o : options) : options :=
  mkOptions (o_key o) (o_request o) (o_errorMessage o) (o_withUpload o) true
    (o_file o) (o_proxy o) (o_toJSON o) (o_toFile o) (o_toBuffer o) (o_outputFile o).

Definition set_proxy (p : string) (o : options) : options :=
  mkOptions (o_key o) (o_request o) (o_errorMessage o) (o_withUpload o)
    (o_withFetch o) (o_file o) (Some p) (o_toJSON o) (o_toFile o) (o_toBuffer o)
    (o_outputFile o).

Definition set_toJSON (o : options) : options :=
  mkOptions (o_key o) (o_request o) (o_errorMessage o) (o_withUpload o)
    (o_withFetch o) (o_file o) (o_proxy o) true (o_toFile o) (o_toBuffer o)
    (o_outputFile o).

Definition set_toFile (f : value) (o : options) : options :=
  mkOptions (o_key o) (o_request o) (o_errorMessage o) (o_withUpload o)
    (o_withFetch o) (o_file o) (o_proxy o) (o_toJSON o) true (o_toBuffer o) f.

Definition set_toBuffer (o : options) : options :=
  mkOptions (o_key o) (o_request o) (o_errorMessage o) (o_withUpload o)
    (o_withFetch o) (o_file o) (o_proxy o) (o_toJSON o) (o_toFile o) true
    (o_outputFile o).

(** Conditional statement without an else branch: [if (c) { o = f o }]. *)
Definition when (c : bool) (f : options → options) (o : options) : options :=
  if c then f o else o.

(** ** The constructor ([lib/index.js]) *)

(** [this.options = { key: key, request: {} }] *)
Definition new (key : string) : options :=
  mkOptions key ∅ None false false VUndefined None false false false VUndefined.

Definition Optidash (key : value) : result options :=
  match key with
  | VStr k => Ok (new k)
  | _ => Throw (Error (VStr "Optidash constructor requires a valid API Key"))
  end.

(** ** The Node runtime seen by the client ([lib/client.js]) *)

(** The [file] part of the multipart form. *)
Inductive file_part :=
  | PartStream (id : nat)
  | PartBuffer (contents : list byte) (filename : value)
  | PartReadStream (path : value).

(** [formData: { file, data: JSON.stringify(options.request) }] for uploads
    (the [data] part is kept as the object it serialises), [body:
    options.request] for fetches. *)
Inductive req_payload :=
  | FormData (file : file_part) (data : gmap string value)
  | Body (body : gmap string value).

Record req_options := mkReqOptions {
  r_json : bool;
  r_strictSSL : bool;
  r_auth : string * string;
  r_encoding : option value;
  r_headers : list (string * Z);
  r_proxy : option string;
  r_url : string;
  r_payload : req_payload
}.

(** What the client takes from its environment: [JSON.parse] ([None] is a
    SyntaxError), whether [request.post] throws synchronously on a given
    request, and the bytes drawn by [crypto.randomBytes]. *)
Class Node := {
  JSON_parse : string → option value;
  request_post_throws : req_options → option js_error;
  randomBytes : nat → list byte
}.

Definition hex_digit (n : N) : ascii :=
  match n with
  | 0%N => "0" | 1%N => "1" | 2%N => "2" | 3%N => "3" | 4%N => "4"
  | 5%N => "5" | 6%N => "6" | 7%N => "7" | 8%N => "8" | 9%N => "9"
  | 10%N => "a" | 11%N => "b" | 12%N => "c" | 13%N => "d" | 14%N => "e"
  | _ => "f"
  end%char.

Fixpoint hex (bs : list byte) : string :=
  match bs with
  | [] => ""
  | b :: bs =>
      String (hex_digit (Byte.to_N b / 16)) (String (hex_digit (Byte.to_N b mod 16)) (hex bs))
  end.

(** The methods of a Buffer that the client could reach by name:
    [buf.toString(encoding)]. *)
Definition Buffer_prototype (method : string) : option (list byte → value → value) :=
  if String.eqb method "toString" then
    Some (λ bs encoding,
            match encoding with
            | VStr "hex" => VStr (hex bs)
            | _ => VStr (String.string_of_list_byte bs)
            end)
  else None.

(** [buf.method(arg)]: calling a property that is [undefined] throws. *)
Definition call_Buffer_method (bs : list byte) (method : string) (arg : value) : result value :=
  match Buffer_prototype method with
  | Some f => Ok (f bs arg)
  | None => Throw (TypeError (method +:+ " is not a function"))
  end.

(** [fs.createReadStream(path)] and [fs.createWriteStream(path)] validate
    the path synchronously and open the file later: a missing file is an
    "error" event, a path that is neither a string nor a Buffer, or that
    holds a null byte, is a thrown TypeError. *)
Fixpoint has_nul (s : string) : bool :=
  match s with
  | EmptyString => false
  | String c s => Ascii.eqb c "000"%char || has_nul s
  end.

Definition fs_valid_path (path : value) : bool :=
  match path with
  | VStr s => negb (has_nul s)
  | VBuffer bs => negb (existsb (Byte.eqb x00) bs)
  | _ => false
  end.

Definition fs_path_error : js_error :=
  TypeError "The path argument must be a string or a Buffer without null bytes".

Definition fs_createReadStream (path : value) : result file_part :=
  if fs_valid_path path then Ok (PartReadStream path) else Throw fs_path_error.

Definition fs_createWriteStream (path : value) : result unit :=
  if fs_valid_path path then Ok () else Throw fs_path_error.

(** [file.on("error", ...)]: streams are event emitters, the plain object
    built for a Buffer has no [on] method. *)
Definition file_on_error (file : file_part) : result unit :=
  match file with
  | PartBuffer _ _ => Throw (TypeError "file.on is not a function")
  | _ => Ok ()
  end.

(** ** The state of one dispatch *)

(** The arguments of one callback invocation, [cb(err, meta, payload)];
    [None] is a [null] or absent error, [VUndefined] an argument that was
    not passed. *)
Record cb_args := mkArgs {
  a_err : option js_error;
  a_meta : value;
  a_payload : value
}.

(** A callback is known by whether invoking it on given arguments throws. *)
Definition callback := cb_args → option js_error.

(** The listeners one run of the "response" handler attaches, with the
    variables they close over: [meta], the write stream [ws] fed by
    [req.pipe(ws)] and the chunk array [buff]. *)
Record sink := mkSink {
  s_meta : value;
  s_toFile : bool;
  s_written : list (list byte);
  s_toBuffer : bool;
  s_buff : list (list byte)
}.

Record dispatch := mkDispatch {
  d_called : bool;                    (* cb.called, set by once *)
  d_calls : list cb_args;             (* invocations of the caller's cb *)
  d_file : option file_part;          (* the upload source, once built *)
  d_request : option req_options;     (* the request handed to request.post *)
  d_file_listener : bool;             (* file.on("error") *)
  d_completion : bool;                (* request.post(reqOptions, callback) *)
  d_req_listeners : bool;             (* req.on("error"), req.on("response") *)
  d_paused : bool;                    (* req.pause() without req.resume() *)
  d_sinks : list sink;
  d_thrown : option js_error;         (* exception thrown out of sendRequest *)
  d_uncaught : option js_error        (* exception thrown out of a listener *)
}.

Definition idle : dispatch :=
  mkDispatch false [] None None false false false false [] None None.

Definition record_call (called : bool) (a : cb_args) (d : dispatch) : dispatch :=
  mkDispatch called (d_calls d ++ [a]) (d_file d) (d_request d) (d_file_listener d)
    (d_completion d) (d_req_listeners d) (d_paused d) (d_sinks d) (d_thrown d)
    (d_uncaught d).

(** [file = ...; file.on("error", ...)] *)
Definition with_file (f : file_part) (d : dispatch) : dispatch :=
  mkDispatch (d_called d) (d_calls d) (Some f) (d_request d) true
    (d_completion d) (d_req_listeners d) (d_paused d) (d_sinks d) (d_thrown d)
    (d_uncaught d).

Definition with_sinks (paused : bool) (ss : list sink) (d : dispatch) : dispatch :=
  mkDispatch (d_called d) (d_calls d) (d_file d) (d_request d) (d_file_listener d)
    (d_completion d) (d_req_listeners d) paused ss (d_thrown d) (d_uncaught d).

Definition with_thrown (e : option js_error) (d : dispatch) : dispatch :=
  mkDispatch (d_called d) (d_calls d) (d_file d) (d_request d) (d_file_listener d)
    (d_completion d) (d_req_listeners d) (d_paused d) (d_sinks d) e (d_uncaught d).

Definition with_uncaught (e : option js_error) (d : dispatch) : dispatch :=
  mkDispatch (d_called d) (d_calls d) (d_file d) (d_request d) (d_file_listener d)
    (d_completion d) (d_req_listeners d) (d_paused d) (d_sinks d) (d_thrown d) e.

(** [request.post(reqOptions, callback)] *)
Definition posted_with_callback (r : req_options) (d : dispatch) : dispatch :=
  mkDispatch (d_called d) (d_calls d) (d_file d) (Some r) (d_file_listener d)
    true (d_req_listeners d) (d_paused d) (d_sinks d) (d_thrown d) (d_uncaught d).

(** [req = request.post(reqOptions); req.pause(); req.on("error", ...);
    req.on("response", ...)] *)
Definition posted_paused (r : req_options) (d : dispatch) : dispatch :=
  mkDispatch (d_called d) (d_calls d) (d_file d) (Some r) (d_file_listener d)
    (d_completion d) true true (d_sinks d) (d_thrown d) (d_uncaught d).

(** Events Node can deliver to the listeners of a dispatch.  The body and
    destination events name the response (by its position in [d_sinks])
    whose listeners they reach. *)
Inductive event :=
  | FileError (e : js_error)
  | Complete (err : option js_error) (body : value)
  | RequestError (e : js_error)
  | Response (headers : option (gmap string string))
  | BodyData (i : nat) (chunk : list byte)
  | BodyEnd (i : nat)
  | WsError (i : nat) (e : js_error)
  | WsFinish (i : nat).

Module client.

(** Invoking the caller's callback directly, as the pre-flight check does
    before [once] is applied. *)
Definition call_raw (cb : callback) (a : cb_args) (d : dispatch) : dispatch * option js_error :=
  (record_call (d_called d) a d, cb a).

(** Invoking [once(cb)]: the wrapper sets [called] and forwards the first
    invocation only. *)
Definition call_once (cb : callback) (a : cb_args) (d : dispatch) : dispatch * option js_error :=
  if d_called d then (d, None) else (record_call true a d, cb a).

(** A listener body that ends in [cb(...)]: an exception of the callback
    leaves the listener uncaught. *)
Definition in_listener (r : dispatch * option js_error) : dispatch :=
  match r.2 with
  | Some e => with_uncaught (Some e) r.1
  | None => r.1
  end.

(** The same inside [sendRequest] itself: the exception reaches the
    caller of [sendRequest]. *)
Definition in_sendRequest (r : dispatch * option js_error) : dispatch :=
  match r.2 with
  | Some e => with_thrown (Some e) r.1
  | None => r.1
  end.

Definition parse_error : js_error :=
  Error (VStr "Unable to parse JSON response from the Optidash API").

Definition upload_url : string := "https://api.optidash.ai/1.0/upload".
Definition fetch_url : string := "https://api.optidash.ai/1.0/fetch".

Section with_runtime.
Context `{Node}.

(** The [file] of the multipart form: a stream is used as it is, a
    Buffer is wrapped with a generated file name, anything else is
    opened as a path. *)
Definition upload_source (o : options) : result file_part :=
  match o_file o with
  | VStream id => Ok (PartStream id)
  | VBuffer bs =>
      match call_Buffer_method (randomBytes 8) "toSting" (VStr "hex") with
      | Ok name => Ok (PartBuffer bs name)
      | Throw e => Throw e
      end
  | path => fs_createReadStream path
  end.

Definition reqOptions (o : options) (url : string) (p : req_payload) : req_options :=
  mkReqOptions true false (o_key o, "")
    (if o_toBuffer o then Some VNull else None)
    (if o_toFile o || o_toBuffer o then [("X-Optidash-Binary", 1%Z)] else [])
    (if truthy_str (o_proxy o) then o_proxy o else None)
    url p.

(** Lines 125-272, once the request options are complete. *)
Definition post (o : options) (cb : callback) (r : req_options) (d : dispatch) : dispatch :=
  if o_toJSON o then
    match request_post_throws r with
    | Some e => with_thrown (Some e) d
    | None => posted_with_callback r d
    end
  else
    match request_post_throws r with
    | Some e => in_sendRequest (call_once cb (mkArgs (Some e) VNull VNull) d)
    | None => posted_paused r d
    end.

(** Transport assembly: multipart form for [upload()], JSON body for
    [fetch()]. *)
Definition transport (o : options) (cb : callback) : dispatch :=
  if o_withUpload o then
    match upload_source o with
    | Throw e => with_thrown (Some e) idle
    | Ok file =>
        match file_on_error file with
        | Throw e => with_thrown (Some e) idle
        | Ok _ =>
            post o cb (reqOptions o upload_url (FormData file (o_request o)))
              (with_file file idle)
        end
    end
  else post o cb (reqOptions o fetch_url (Body (o_request o))) idle.

Definition sendRequest (o : options) (cb : callback) : dispatch :=
  match o_errorMessage o with
  | Some m =>
      if truthy (VStr m) then
        in_sendRequest
          (call_raw cb (mkArgs (Some (Error (VStr m))) VUndefined VUndefined) idle)
      else transport o cb
  | None => transport o cb
  end.

(** *** The listeners *)

(** [file.on("error", (err) => cb(err))] *)
Definition on_file_error (cb : callback) (e : js_error) (d : dispatch) : dispatch :=
  in_listener (call_once cb (mkArgs (Some e) VUndefined VUndefined) d).

(** The completion callback of the JSON sink, lines 131-139. *)
Definition on_complete (cb : callback) (err : option js_error) (body : value)
    (d : dispatch) : dispatch :=
  if negb (d_called d) then
    if truthy body then
      match get body "message" with
      | Ok m =>
          if truthy m then
            in_listener (call_once cb (mkArgs (Some (Error m)) body VUndefined) d)
          else in_listener (call_once cb (mkArgs err body VUndefined) d)
      | Throw e => with_uncaught (Some e) d
      end
    else in_listener (call_once cb (mkArgs err body VUndefined) d)
  else d.

(** [req.on("error", ...)] *)
Definition on_request_error (cb : callback) (e : js_error) (d : dispatch) : dispatch :=
  if negb (d_called d) then
    in_listener (call_once cb (mkArgs (Some e) VUndefined VUndefined) d)
  else d.

(** [res.headers && res.headers["x-optidash-meta"]], when truthy. *)
Definition meta_header (headers : option (gmap string string)) : option string :=
  match headers with
  | Some h =>
      match h !! "x-optidash-meta" with
      | Some s => if truthy (VStr s) then Some s else None
      | None => None
      end
  | None => None
  end.

(** Lines 215-269: the destination of [toFile], the chunk array of
    [toBuffer], then [req.resume()]. *)
Definition attach (o : options) (meta : value) (d : dispatch) : dispatch :=
  let ws :=
    if o_toFile o then
      if instanceof_Stream (o_outputFile o) then Ok ()
      else fs_createWriteStream (o_outputFile o)
    else Ok () in
  match ws with
  | Throw e => with_uncaught (Some e) d
  | Ok _ =>
      with_sinks false (d_sinks d ++ [mkSink meta (o_toFile o) [] (o_toBuffer o) []]) d
  end.

(** [meta.success === false] *)
Definition is_false (v : value) : bool :=
  match v with
  | VBool false => true
  | _ => false
  end.

(** Lines 205-207, then the sinks. *)
Definition check_meta (o : options) (cb : callback) (meta : value) (d : dispatch) : dispatch :=
  match get meta "success" with
  | Throw e => with_uncaught (Some e) d
  | Ok success =>
      if is_false success && negb (d_called d) then
        match get meta "message" with
        | Ok m => in_listener (call_once cb (mkArgs (Some (Error m)) meta VUndefined) d)
        | Throw e => with_uncaught (Some e) d
        end
      else attach o meta d
  end.

(** [req.on("response", ...)], lines 180-270. *)
Definition on_response (o : options) (cb : callback)
    (headers : option (gmap string string)) (d : dispatch) : dispatch :=
  match meta_header headers with
  | Some s =>
      match JSON_parse s with
      | Some meta => check_meta o cb meta d
      | None =>
          if negb (d_called d) then
            in_listener (call_once cb (mkArgs (Some parse_error) VUndefined VUndefined) d)
          else check_meta o cb (VObj []) d
      end
  | None => check_meta o cb (VObj []) d
  end.

(** A body chunk: written to [ws] through the pipe, pushed on [buff]. *)
Definition feed (chunk : list byte) (s : sink) : sink :=
  mkSink (s_meta s) (s_toFile s)
    (if s_toFile s then s_written s ++ [chunk] else s_written s)
    (s_toBuffer s)
    (if s_toBuffer s then s_buff s ++ [chunk] else s_buff s).

Definition on_data (i : nat) (chunk : list byte) (d : dispatch) : dispatch :=
  if d_paused d then d
  else with_sinks (d_paused d) (alter (feed chunk) i (d_sinks d)) d.

(** [res.on("end", ...)] *)
Definition on_end (cb : callback) (i : nat) (d : dispatch) : dispatch :=
  match d_sinks d !! i with
  | Some s =>
      if s_toBuffer s && negb (d_called d) then
        in_listener
          (call_once cb (mkArgs None (s_meta s) (VBuffer (concat (s_buff s)))) d)
      else d
  | None => d
  end.

(** [ws.on("error", ...)] *)
Definition on_ws_error (cb : callback) (i : nat) (e : js_error) (d : dispatch) : dispatch :=
  match d_sinks d !! i with
  | Some s =>
      if s_toFile s && negb (d_called d) then
        in_listener (call_once cb (mkArgs (Some e) (s_meta s) VUndefined) d)
      else d
  | None => d
  end.

(** [ws.on("finish", ...)] *)
Definition on_ws_finish (cb : callback) (i : nat) (d : dispatch) : dispatch :=
  match d_sinks d !! i with
  | Some s =>
      if s_toFile s && negb (d_called d) then
        in_listener (call_once cb (mkArgs None (s_meta s) VUndefined) d)
      else d
  | None => d
  end.

(** One event: it reaches a listener only if that listener has been
    registered, and nothing runs after an uncaught exception. *)
Definition step (o : options) (cb : callback) (d : dispatch) (ev : event) : dispatch :=
  match d_uncaught d with
  | Some _ => d
  | None =>
      match ev with
      | FileError e => if d_file_listener d then on_file_error cb e d else d
      | Complete err body => if d_completion d then on_complete cb err body d else d
      | RequestError e => if d_req_listeners d then on_request_error cb e d else d
      | Response headers => if d_req_listeners d then on_response o cb headers d else d
      | BodyData i chunk => on_data i chunk d
      | BodyEnd i => on_end cb i d
      | WsError i e => on_ws_error cb i e d
      | WsFinish i => on_ws_finish cb i d
      end
  end.

Definition run (o : options) (cb : callback) (d : dispatch) (trace : list event) : dispatch :=
  fold_left (step o cb) trace d.

(** A whole dispatch: [sendRequest], then the events that follow it. *)
Definition dispatched (o : options) (cb : callback) (trace : list event) : dispatch :=
  run o cb (sendRequest o cb) trace.
End with_runtime.
End client.

(** ** The builder methods ([lib/operations.js]) *)

Module operations.

(** The messages of the configuration errors. *)
Definition upload_requires_file : string :=
  "Optidash upload(string|stream) method requires a valid file path or a stream passed as an argument".

Definition one_input_method : string :=
  "Optidash only accepts one file input method per call: upload(string|stream) or fetch(string)".

Definition fetch_requires_url : string :=
  "Optidash fetch(string) method requires a valid file URL passed as an argument".

Definition toJSON_requires_callback : string :=
  "Optidash toJSON(fn) method requires a callback function".

Definition one_response_method : string :=
  "Optidash only accepts one response method per call: toJSON(fn), toFile(string|stream, fn) or toBuffer(fn)".

Definition no_file_input : string :=
  "No file input has been specified: upload(string|stream) or fetch(string)".

Definition toFile_requires_callback : string :=
  "Optidash toFile(string|stream, fn) method requires a callback function as a second parameter".

Definition toFile_requires_destination : string :=
  "Optidash toFile(string|stream, fn) method requires a file path or a stream as a first parameter".

Definition toFile_with_webhook : string :=
  "Binary responses with toFile(string|stream, fn) method are not supported when using Webhooks".

Definition toFile_with_store : string :=
  "Binary responses with toFile(string|stream, fn) method are not supported when using External Storage".

Definition toBuffer_requires_callback : string :=
  "Optidash toBuffer(fn) method requires a callback function".

Definition toBuffer_with_webhook : string :=
  "Binary responses with toBuffer(fn) method are not supported when using Webhooks".

Definition toBuffer_with_store : string :=
  "Binary responses with toBuffer(fn) method are not supported when using External Storage".

(** The messages a builder method can leave in [options.errorMessage]. *)
Definition configuration_errors : list string :=
  [ upload_requires_file; one_input_method; fetch_requires_url;
    toJSON_requires_callback; one_response_method; no_file_input;
    toFile_requires_destination; toFile_with_webhook; toFile_with_store;
    toBuffer_with_webhook; toBuffer_with_store ].

Definition upload (file : value) (o : options) : options :=
  let o := when (negb (is_string file) && negb (instanceof_Stream file))
    (set_errorMessage upload_requires_file) o in
  let o := when (o_withFetch o)
    (set_errorMessage one_input_method) o in
  set_upload file o.

Definition fetch (url : value) (o : options) : options :=
  let o := when (String.eqb (typeof url) "undefined")
    (set_errorMessage fetch_requires_url) o in
  let o := when (o_withUpload o)
    (set_errorMessage one_input_method) o in
  set_withFetch (set_request "url" url o).

Definition proxy (proxy : value) (o : options) : options :=
  match proxy with
  | VStr p => set_proxy p o
  | _ => o
  end.

Definition optimize (data : value) (o : options) : options :=
  when (is_object data) (set_request "optimize" data) o.

Definition flip (data : value) (o : options) : options :=
  when (is_object data) (set_request "flip" data) o.

Definition resize (data : value) (o : options) : options :=
  when (is_object data) (set_request "resize" data) o.

Definition scale (data : value) (o : options) : options :=
  when (is_object data) (set_request "scale" data) o.

Definition crop (data : value) (o : options) : options :=
  when (is_object data) (set_request "crop" data) o.

Definition watermark (data : value) (o : options) : options :=
  when (is_object data) (set_request "watermark" data) o.

Definition mask (data : value) (o : options) : options :=
  when (is_object data) (set_request "mask" data) o.

Definition filter (data : value) (o : options) : options :=
  when (is_object data) (set_request "filter" data) o.

Definition adjust (data : value) (o : options) : options :=
  when (is_object data) (set_request "adjust" data) o.

Definition auto (data : value) (o : options) : options :=
  when (is_object data) (set_request "auto" data) o.

Definition border (data : value) (o : options) : options :=
  when (is_object data) (set_request "border" data) o.

Definition padding (data : value) (o : options) : options :=
  when (is_object data) (set_request "padding" data) o.

Definition store (data : value) (o : options) : options :=
  when (is_object data) (set_request "store" data) o.

Definition output (data : value) (o : options) : options :=
  when (is_object data) (set_request "output" data) o.

Definition webhook (data : value) (o : options) : options :=
  when (is_object data) (set_request "webhook" data) o.

Definition cdn (data : value) (o : options) : options :=
  when (is_object data) (set_request "cdn" data) o.

(** The operation setters, under the names they get on the prototype. *)
Definition setters : list (string * (value → options → options)) :=
  [ ("optimize", optimize); ("flip", flip); ("resize", resize); ("scale", scale);
    ("crop", crop); ("watermark", watermark); ("mask", mask); ("filter", filter);
    ("adjust", adjust); ("auto", auto); ("border", border); ("padding", padding);
    ("store", store); ("output", output); ("webhook", webhook); ("cdn", cdn) ].

(** [(err, response) => { cb(err, response); }] and [(err, meta, buff) =>
    { cb(err, meta, buff); }]: calling a [cb] that is not a function
    throws. *)
Definition forward (cb : value) : callback :=
  λ _, if is_function cb then None else Some (TypeError "cb is not a function").

(** What the user's function receives from those wrappers. *)
Definition received2 (cb : value) (calls : list cb_args) : list cb_args :=
  if is_function cb then (λ a, mkArgs (a_err a) (a_meta a) VUndefined) <$> calls else [].

Definition received3 (cb : value) (calls : list cb_args) : list cb_args :=
  if is_function cb then calls else [].

Definition binary_mode : value := VObj [("mode", VStr "binary")].

(** A terminal sink returns [this]; [sent] is the dispatch it started. *)
Record returned := mkReturned {
  this : options;
  sent : dispatch
}.

Section with_runtime.
Context `{Node}.

Definition toJSON (cb : value) (o : options) : returned :=
  let o := when (negb (is_function cb))
    (set_errorMessage toJSON_requires_callback) o in
  let o := when (o_toFile o || o_toBuffer o) (set_errorMessage one_response_method) o in
  let o := when (negb (o_withUpload o) && negb (o_withFetch o))
    (set_errorMessage no_file_input) o in
  let o := set_toJSON o in
  mkReturned o (client.sendRequest o (forward cb)).

Definition toFile (file cb : value) (o : options) : result returned :=
  if negb (is_function cb) then
    Throw (Error (VStr toFile_requires_callback))
  else
    let o := when (negb (is_string file) && negb (instanceof_Stream file))
      (set_errorMessage toFile_requires_destination) o in
    let o := when (o_toJSON o || o_toBuffer o) (set_errorMessage one_response_method) o in
    let o := when (negb (o_withUpload o) && negb (o_withFetch o))
      (set_errorMessage no_file_input) o in
    let o := when (truthy_opt (o_request o !! "webhook"))
      (set_errorMessage toFile_with_webhook) o in
    let o := when (truthy_opt (o_request o !! "store"))
      (set_errorMessage toFile_with_store) o in
    let o := set_request "response" binary_mode o in
    let o := set_toFile file o in
    Ok (mkReturned o (client.sendRequest o (forward cb))).

Definition toBuffer (cb : value) (o : options) : result returned :=
  if negb (is_function cb) then
    Throw (Error (VStr toBuffer_requires_callback))
  else
    let o := when (o_toJSON o || o_toFile o) (set_errorMessage one_response_method) o in
    let o := when (negb (o_withUpload o) && negb (o_withFetch o))
      (set_errorMessage no_file_input) o in
    let o := when (truthy_opt (o_request o !! "webhook"))
      (set_errorMessage toBuffer_with_webhook) o in
    let o := when (truthy_opt (o_request o !! "store"))
      (set_errorMessage toBuffer_with_store) o in
    let o := set_request "response" binary_mode o in
    let o := set_toBuffer o in
    Ok (mkReturned o (client.sendRequest o (forward cb))).

(** *** Chains of method calls on one builder *)

Inductive method :=
  | call_upload (file : value)
  | call_fetch (url : value)
  | call_proxy (p : value)
  | call_setter (name : string) (data : value)
  | call_toJSON (cb : value)
  | call_toFile (file cb : value)
  | call_toBuffer (cb : value).

Fixpoint lookup_setter (name : string) (l : list (string * (value → options → options)))
    : option (value → options → options) :=
  match l with
  | [] => None
  | (n, f) :: l => if String.eqb name n then Some f else lookup_setter name l
  end.

(** The options object after one call, whether or not the call threw. *)
Definition after (o : options) (m : method) : options :=
  match m with
  | call_upload file => upload file o
  | call_fetch url => fetch url o
  | call_proxy p => proxy p o
  | call_setter name data =>
      match lookup_setter name setters with
      | Some f => f data o
      | None => o
      end
  | call_toJSON cb => this (toJSON cb o)
  | call_toFile file cb =>
      match toFile file cb o with
      | Ok r => this r
      | Throw _ => o
      end
  | call_toBuffer cb =>
      match toBuffer cb o with
      | Ok r => this r
      | Throw _ => o
      end
  end.

Definition chain (o : options) (ms : list method) : options :=
  fold_left after ms o.

(** A call of one of the three terminal sinks. *)
Inductive sink_call :=
  | to_JSON (cb : value)
  | to_File (file cb : value)
  | to_Buffer (cb : value).

Definition call_sink (s : sink_call) (o : options) : result returned :=
  match s with
  | to_JSON cb => Ok (toJSON cb o)
  | to_File file cb => toFile file cb o
  | to_Buffer cb => toBuffer cb o
  end.

Definition sink_callback (s : sink_call) : value :=
  match s with
  | to_JSON cb | to_File _ cb | to_Buffer cb => cb
  end.

(** What the user's function has received from the dispatch of a sink. *)
Definition received (s : sink_call) (calls : list cb_args) : list cb_args :=
  match s with
  | to_Buffer cb => received3 cb calls
  | to_JSON cb | to_File _ cb => received2 cb calls
  end.

Definition is_upload (m : method) : bool :=
  match m with call_upload _ => true | _ => false end.

Definition is_fetch (m : method) : bool :=
  match m with call_fetch _ => true | _ => false end.
End with_runtime.
End operations.


(** ** Concrete inputs *)

Module examples.

Definition quote : string := String "034"%char "".

(** [{"success":true}] *)
Definition meta_success : string :=
  "{" +:+ quote +:+ "success" +:+ quote +:+ ":true}".

(** [{"success":false,"message":"bad input"}] *)
Definition meta_failure : string :=
  "{" +:+ quote +:+ "success" +:+ quote +:+ ":false," +:+ quote +:+ "message" +:+ quote
  +:+ ":" +:+ quote +:+ "bad input" +:+ quote +:+ "}".

(** [JSON.parse] on the three texts the examples use; every other text
    is taken to be malformed. *)
Definition parse (s : string) : option value :=
  if String.eqb s meta_success then Some (VObj [("success", VBool true)])
  else if String.eqb s meta_failure then
    Some (VObj [("success", VBool false); ("message", VStr "bad input")])
  else if String.eqb s "null" then Some VNull
  else None.

Definition runtime : Node :=
  {| JSON_parse := parse;
     request_post_throws := λ _, None;
     randomBytes := λ n, repeat x00 n |}.

Definition fn : value := VFun "callback".

(** [new Optidash("your-api-key")] *)
Definition opti : options := new "your-api-key".

Definition image_url : value := VStr "https://www.website.com/image.jpg".

Definition headers (meta : string) : option (gmap string string) :=
  Some {[ "x-optidash-meta" := meta ]}.

Definition ENOENT : js_error := SystemError "ENOENT".

End examples.


(** ** Vocabulary of the properties *)

Import client operations.

(** No listener is registered: the state [sendRequest] leaves behind when
    it returns from the pre-flight check or throws during transport
    assembly. *)
Definition quiescent (d : dispatch) : Prop :=
  d_file_listener d = false ∧ d_completion d = false ∧
  d_req_listeners d = false ∧ d_sinks d = [].

(** The guard invariant: [called] is set exactly when the wrapped callback
    has run, and a callback that ran unwrapped left no listener behind. *)
Definition guarded (d : dispatch) : Prop :=
  (length (d_calls d) ≤ 1)%nat ∧
  (d_called d = true → length (d_calls d) = 1%nat) ∧
  (d_called d = false → d_calls d = [] ∨ quiescent d).

(** The dispatch that failed its pre-flight check with message [m]: one
    invocation of the callback, no request, no file, no listener. *)
Definition rejected (m : string) (cb : callback) : dispatch :=
  let a := mkArgs (Some (Error (VStr m))) VUndefined VUndefined in
  mkDispatch false [a] None None false false false false [] (cb a) None.

(** Metadata that reports a failure: [meta.success === false]. *)
Definition reports_failure (meta : value) : bool :=
  match get meta "success" with
  | Ok v => is_false v
  | Throw _ => false
  end.

(** The value of the metadata header of a response, if it has one. *)
Definition header_value (headers : option (gmap string string)) : option string :=
  match headers with
  | Some h => h !! "x-optidash-meta"
  | None => None
  end.

(** Metadata that passes the check of the "response" listener. *)
Definition passes_check (meta : value) : bool :=
  match get meta "success" with
  | Ok v => negb (is_false v)
  | Throw _ => false
  end.

(** What the "response" listener takes as metadata from the headers. *)
Definition metadata_of `{Node} (headers : option (gmap string string)) : option value :=
  match meta_header headers with
  | Some s => JSON_parse s
  | None => Some (VObj [])
  end.

Definition is_response (ev : event) : bool :=
  match ev with
  | Response _ => true
  | _ => false
  end.

(** The message the JSON sink takes from a response body: [body &&
    body.message], when truthy. *)
Definition body_message (body : value) : option value :=
  match body with
  | VObj fields => if truthy (assoc "message" fields) then Some (assoc "message" fields) else None
  | _ => None
  end.

(** The builder invariant: an error message is one of the configuration
    errors, and one is recorded once both input methods have been used. *)
Definition consistent (o : options) : Prop :=
  (o_withUpload o = true → o_withFetch o = true → is_Some (o_errorMessage o)) ∧
  (∀ m, o_errorMessage o = Some m → m ∈ configuration_errors).

(** The argument list [(new Error(m))]. *)
Definition error_only (m : string) : cb_args :=
  mkArgs (Some (Error (VStr m))) VUndefined VUndefined.

(** The message a sink reports when no input method was chosen and its own
    arguments are well formed: the checks for webhooks and external
    storage of the binary sinks come after the check of the input and
    overwrite its message. *)
Definition message_without_input (s : sink_call) (o : options) : string :=
  match s with
  | to_JSON _ => no_file_input
  | to_File _ _ =>
      if truthy_opt (o_request o !! "store") then toFile_with_store
      else if truthy_opt (o_request o !! "webhook") then toFile_with_webhook
      else no_file_input
  | to_Buffer _ =>
      if truthy_opt (o_request o !! "store") then toBuffer_with_store
      else if truthy_opt (o_request o !! "webhook") then toBuffer_with_webhook
      else no_file_input
  end.

(** The message [toFile] reports for a destination that is neither a
    string nor a stream: its own, unless one of the checks that follow it
    applies and overwrites it. *)
Definition destination_message (o : options) : string :=
  if truthy_opt (o_request o !! "store") then toFile_with_store
  else if truthy_opt (o_request o !! "webhook") then toFile_with_webhook
  else if negb (o_withUpload o) && negb (o_withFetch o) then no_file_input
  else if o_toJSON o || o_toBuffer o then one_response_method
  else toFile_requires_destination.


(** ** Vocabulary of the further properties *)

(** An upload source the client can open: a path or a stream. *)
Definition openable (file : value) : bool :=
  is_string file || instanceof_Stream file.

(** An upload source the client reads without throwing: a stream, or a
    path [fs] accepts. *)
Definition readable (file : value) : bool :=
  instanceof_Stream file || (is_string file && fs_valid_path file).

(** The options choose [fetch], or [upload] with a readable source. *)
Definition source_readable (o : options) : bool :=
  negb (o_withUpload o) || readable (o_file o).

(** A builder that chose [upload] and holds no error has an openable file. *)
Definition well_sourced (o : options) : Prop :=
  o_withUpload o = true → o_errorMessage o = None → openable (o_file o) = true.

(** A destination [toFile] can write to: a stream, or a path [fs] accepts. *)
Definition writable (dest : value) : bool :=
  instanceof_Stream dest || fs_valid_path dest.

(** The error message a sink leaves in the options, by precedence: the
    last check that applies wins, and the message already recorded stays
    when none applies. *)
Definition sink_precedence (s : sink_call) (o : options) : option string :=
  match s with
  | to_JSON cb =>
      if negb (o_withUpload o) && negb (o_withFetch o) then Some no_file_input
      else if o_toFile o || o_toBuffer o then Some one_response_method
      else if negb (is_function cb) then Some toJSON_requires_callback
      else o_errorMessage o
  | to_File file cb =>
      if truthy_opt (o_request o !! "store") then Some toFile_with_store
      else if truthy_opt (o_request o !! "webhook") then Some toFile_with_webhook
      else if negb (o_withUpload o) && negb (o_withFetch o) then Some no_file_input
      else if o_toJSON o || o_toBuffer o then Some one_response_method
      else if negb (is_string file) && negb (instanceof_Stream file)
           then Some toFile_requires_destination
      else o_errorMessage o
  | to_Buffer cb =>
      if truthy_opt (o_request o !! "store") then Some toBuffer_with_store
      else if truthy_opt (o_request o !! "webhook") then Some toBuffer_with_webhook
      else if negb (o_withUpload o) && negb (o_withFetch o) then Some no_file_input
      else if o_toJSON o || o_toFile o then Some one_response_method
      else o_errorMessage o
  end.

(** The response flags a method call sets: [toJSON] always sets its flag,
    [toFile] and [toBuffer] only when they do not throw. *)
Definition sets_toJSON (m : method) : bool :=
  match m with call_toJSON _ => true | _ => false end.

Definition sets_toFile (m : method) : bool :=
  match m with call_toFile _ cb => is_function cb | _ => false end.

Definition sets_toBuffer (m : method) : bool :=
  match m with call_toBuffer cb => is_function cb | _ => false end.

(** Some call of the chain has set the flag of a sink other than [s]. *)
Definition other_sink_called (s : sink_call) (ms : list method) : bool :=
  match s with
  | to_JSON _ => existsb sets_toFile ms || existsb sets_toBuffer ms
  | to_File _ _ => existsb sets_toJSON ms || existsb sets_toBuffer ms
  | to_Buffer _ => existsb sets_toJSON ms || existsb sets_toFile ms
  end.

(** The headers and the encoding a sink asks for. *)
Definition sink_headers (s : sink_call) : list (string * Z) :=
  match s with
  | to_JSON _ => []
  | _ => [("X-Optidash-Binary", 1%Z)]
  end.

Definition sink_encoding (s : sink_call) : option value :=
  match s with
  | to_Buffer _ => Some VNull
  | _ => None
  end.

(** The multipart file for an openable upload source. *)
Definition source_part (file : value) : file_part :=
  match file with
  | VStream id => PartStream id
  | path => PartReadStream path
  end.

(** The body and the endpoint of the request for the chosen transport. *)
Definition transport_payload (o : options) : req_payload :=
  if o_withUpload o then FormData (source_part (o_file o)) (o_request o)
  else Body (o_request o).

Definition transport_url (o : options) : string :=
  if o_withUpload o then upload_url else fetch_url.

(** The error argument alone, [cb(err)]. *)
Definition error_args (e : js_error) : cb_args :=
  mkArgs (Some e) VUndefined VUndefined.

(** A method call whose argument [upload] or [fetch] refuses. *)
Definition malformed_input (m : method) : bool :=
  match m with
  | call_upload file => negb (openable file)
  | call_fetch url => String.eqb (typeof url) "undefined"
  | _ => false
  end.

(** Further concrete inputs. *)
Module more_examples.

Definition ECONNREFUSED : js_error := SystemError "ECONNREFUSED".

(** A runtime in which [request.post] throws on every request. *)
Definition throwing_runtime : Node :=
  {| JSON_parse := examples.parse;
     request_post_throws := λ _, Some (TypeError "options.uri is a required argument");
     randomBytes := λ n, repeat x00 n |}.

Definition fetch_toJSON : options :=
  @chain examples.runtime examples.opti
    [call_fetch examples.image_url; call_toJSON examples.fn].

Definition upload_toJSON : options :=
  @chain examples.runtime examples.opti
    [call_upload (VStr "path/to/input.jpg"); call_toJSON examples.fn].

Definition fetch_toFile : options :=
  @chain examples.runtime examples.opti
    [call_fetch examples.image_url;
     call_toFile (VStr "path/to/output.png") examples.fn].

Definition fetch_toBuffer : options :=
  @chain examples.runtime examples.opti
    [call_fetch examples.image_url; call_toBuffer examples.fn].

End more_examples.


(** * Properties *)

Ltac unfold_listeners :=
  unfold step, on_file_error, on_complete, on_request_error, on_response,
    check_meta, attach, on_data, on_end, on_ws_error, on_ws_finish,
    in_listener, in_sendRequest, call_once, call_raw, with_uncaught, with_thrown,
    with_sinks, with_file, record_call, posted_paused, posted_with_callback in *.

Ltac split_cases :=
  repeat (simpl in *; try done; case_match; simplify_eq).

Ltac close_guard :=
  simpl in *; intuition (auto; first [lia | congruence | done]).

Section dispatch_facts.
Context `{Node}.

Lemma step_uncaught o cb d ev e : d_uncaught d = Some e → step o cb d ev = d.
Proof. intros Hu. unfold step. by rewrite Hu. Qed.

Lemma step_called o cb d ev : d_called d = true → d_called (step o cb d ev) = true.
Proof.
  intros Hc. destruct ev; unfold_listeners; rewrite ?Hc; split_cases.
Qed.

Lemma step_calls_called o cb d ev :
  d_called d = true → d_calls (step o cb d ev) = d_calls d.
Proof.
  intros Hc. destruct ev; unfold_listeners; rewrite ?Hc; split_cases.
Qed.

Lemma step_quiescent o cb d ev :
  quiescent d → quiescent (step o cb d ev) ∧ d_calls (step o cb d ev) = d_calls d
                ∧ d_called (step o cb d ev) = d_called d.
Proof.
  intros (Hf & Hc & Hr & Hs). unfold quiescent.
  destruct ev; unfold_listeners; rewrite ?Hf, ?Hc, ?Hr, ?Hs; split_cases.
Qed.

Lemma step_fresh o cb d ev :
  d_called d = false → d_calls d = [] →
  (d_called (step o cb d ev) = false ∧ d_calls (step o cb d ev) = []) ∨
  (d_called (step o cb d ev) = true ∧ length (d_calls (step o cb d ev)) = 1).
Proof.
  intros Hc Hn. destruct ev; unfold_listeners; rewrite ?Hc, ?Hn; split_cases; auto.
Qed.

Lemma step_guarded o cb d ev : guarded d → guarded (step o cb d ev).
Proof.
  intros (Hle & Hone & Hnone). destruct (d_called d) eqn:Hc.
  - pose proof (step_called o cb d ev Hc) as Hc'.
    pose proof (step_calls_called o cb d ev Hc) as Hk.
    unfold guarded. rewrite Hc', Hk. close_guard.
  - destruct (Hnone eq_refl) as [Hn | Hq].
    + destruct (step_fresh o cb d ev Hc Hn) as [[Hc' Hk] | [Hc' Hk]];
        unfold guarded; rewrite Hc', Hk; simpl; close_guard.
    + destruct (step_quiescent o cb d ev Hq) as (Hq' & Hk & Hc').
      unfold guarded. rewrite Hk, Hc', Hc. close_guard.
Qed.

Lemma run_guarded o cb tr : ∀ d, guarded d → guarded (run o cb d tr).
Proof.
  induction tr as [| ev tr IH]; intros d Hd; [done |].
  apply IH, step_guarded, Hd.
Qed.

Lemma run_cons o cb d ev tr : run o cb d (ev :: tr) = run o cb (step o cb d ev) tr.
Proof. done. Qed.

Lemma run_app o cb d tr1 tr2 :
  run o cb d (tr1 ++ tr2) = run o cb (run o cb d tr1) tr2.
Proof. apply fold_left_app. Qed.

Lemma run_called o cb tr : ∀ d, d_called d = true → d_called (run o cb d tr) = true.
Proof.
  induction tr as [| ev tr IH]; intros d Hd; [done |].
  apply IH, step_called, Hd.
Qed.

Lemma run_quiescent o cb tr : ∀ d,
  quiescent d → quiescent (run o cb d tr) ∧ d_calls (run o cb d tr) = d_calls d.
Proof.
  induction tr as [| ev tr IH]; intros d Hd; [done |].
  destruct (step_quiescent o cb d ev Hd) as (Hq & Hk & _).
  destruct (IH _ Hq) as [Hq' Hk']. simpl. by rewrite Hk', Hk.
Qed.

Lemma post_guarded o cb r d :
  d_called d = false → d_calls d = [] → guarded (post o cb r d).
Proof.
  intros Hc Hn. unfold post, guarded, quiescent. unfold_listeners.
  rewrite ?Hc, ?Hn. split_cases; close_guard.
Qed.

Lemma sendRequest_guarded o cb : guarded (sendRequest o cb).
Proof.
  unfold sendRequest, transport.
  repeat case_match; try (by apply post_guarded);
    unfold guarded, quiescent; unfold_listeners; split_cases;
    close_guard.
Qed.

Lemma dispatched_guarded o cb tr : guarded (dispatched o cb tr).
Proof. apply run_guarded, sendRequest_guarded. Qed.

Lemma run_calls_called o cb tr : ∀ d,
  d_called d = true → d_calls (run o cb d tr) = d_calls d.
Proof.
  induction tr as [| ev tr IH]; intros d Hd; [done |].
  simpl. rewrite IH by (by apply step_called). by apply step_calls_called.
Qed.

Lemma step_idle o cb d ev : quiescent d → step o cb d ev = d.
Proof.
  intros (Hf & Hc & Hr & Hs). destruct d; simpl in *; subst.
  destruct ev; unfold_listeners; split_cases.
Qed.

Lemma run_idle o cb tr d : quiescent d → run o cb d tr = d.
Proof.
  intros Hq. induction tr as [| ev tr IH]; [done |].
  simpl. by rewrite step_idle.
Qed.

Lemma rejected_quiescent m cb : quiescent (rejected m cb).
Proof. by repeat split. Qed.

Lemma sendRequest_rejected o cb m :
  o_errorMessage o = Some m → m ≠ "" → sendRequest o cb = rejected m cb.
Proof.
  intros Hm Hne. unfold sendRequest. rewrite Hm. simpl.
  apply String.eqb_neq in Hne. rewrite Hne. simpl.
  unfold rejected, in_sendRequest, call_raw. simpl. by destruct (cb _).
Qed.

Lemma sendRequest_buffer_source o cb bs :
  truthy_str (o_errorMessage o) = false → o_withUpload o = true →
  o_file o = VBuffer bs →
  sendRequest o cb = with_thrown (Some (TypeError "toSting is not a function")) idle.
Proof.
  intros He Hu Hf. unfold sendRequest, transport, upload_source. rewrite Hu, Hf.
  destruct (o_errorMessage o) as [m |]; [| done].
  simpl in He. simpl. by rewrite He.
Qed.

(** C1 (code defect).  A dispatch whose upload source is a Buffer does not
    invoke its callback exactly once but never: [sendRequest] throws while
    it builds the file name, after the callback has been wrapped and
    before any listener exists, so no event that follows can reach the
    callback. *)
Theorem buffer_upload_never_invokes_callback o cb bs tr :
  truthy_str (o_errorMessage o) = false → o_withUpload o = true →
  o_file o = VBuffer bs →
  d_calls (dispatched o cb tr) = [] ∧
  length (d_calls (dispatched o cb tr)) ≠ 1%nat ∧
  d_thrown (dispatched o cb tr) = Some (TypeError "toSting is not a function") ∧
  d_request (dispatched o cb tr) = None.
Proof.
  intros He Hu Hf. unfold dispatched.
  rewrite (sendRequest_buffer_source o cb bs He Hu Hf).
  by rewrite run_idle.
Qed.

(** The name the Buffer branch calls is not the method that renders the
    random bytes in hexadecimal. *)
Lemma filename_method_is_misspelt bs :
  call_Buffer_method bs "toString" (VStr "hex") = Ok (VStr (hex bs)) ∧
  call_Buffer_method bs "toSting" (VStr "hex")
  = Throw (TypeError "toSting is not a function").
Proof. by split. Qed.

(** C7 (code defect).  An upload whose source is a Buffer never reaches
    the request: building the file name calls [toSting], which no Buffer
    has, and the TypeError leaves [sendRequest] before any listener is
    registered and before the callback is invoked. *)
Theorem buffer_upload_throws_TypeError o cb bs tr :
  truthy_str (o_errorMessage o) = false → o_withUpload o = true →
  o_file o = VBuffer bs →
  dispatched o cb tr = with_thrown (Some (TypeError "toSting is not a function")) idle.
Proof.
  intros He Hu Hf. unfold dispatched.
  assert (sendRequest o cb
          = with_thrown (Some (TypeError "toSting is not a function")) idle) as ->.
  { unfold sendRequest, transport, upload_source. rewrite Hu, Hf.
    destruct (o_errorMessage o) as [m |]; [| done].
    simpl in He. simpl. by rewrite He. }
  by apply run_idle.
Qed.

Lemma live_calls d :
  guarded d → d_called d = false →
  d_completion d = true ∨ d_req_listeners d = true → d_calls d = [].
Proof.
  intros (_ & _ & Hn) Hc Hl. destruct (Hn Hc) as [| (_ & Hq1 & Hq2 & _)]; [done |].
  destruct Hl; congruence.
Qed.

(** C3 (as amended).  When the completion of a JSON request finds the
    callback not yet invoked, the callback receives the body as metadata;
    its error is built from the body's [message] whenever the body is an
    object with a truthy [message], whatever its [success] flag, and is the
    error of the request otherwise.  In particular a body with [success:
    false] and a non-empty message yields an error with that message. *)
Theorem json_sink_error_follows_body_message o cb tr err body :
  d_completion (dispatched o cb tr) = true →
  d_called (dispatched o cb tr) = false →
  d_uncaught (dispatched o cb tr) = None →
  d_calls (step o cb (dispatched o cb tr) (Complete err body)) =
    [mkArgs (match body_message body with
             | Some m => Some (Error m)
             | None => err
             end) body VUndefined] ∧
  (∀ fields s,
     body = VObj fields → assoc "success" fields = VBool false →
     assoc "message" fields = VStr s → s ≠ "" →
     d_calls (step o cb (dispatched o cb tr) (Complete err body)) =
       [mkArgs (Some (Error (VStr s))) body VUndefined]).
Proof.
  intros Hl Hc Hu.
  pose proof (live_calls _ (dispatched_guarded o cb tr) Hc (or_introl Hl)) as Hn.
  assert (d_calls (step o cb (dispatched o cb tr) (Complete err body)) =
    [mkArgs (match body_message body with
             | Some m => Some (Error m)
             | None => err
             end) body VUndefined]) as Hgen.
  { unfold step. rewrite Hu, Hl. unfold body_message.
    unfold_listeners. unfold get. rewrite Hc, Hn. split_cases. }
  split; [done |]. intros fields s -> _ Hm Hne.
  rewrite Hgen. unfold body_message. rewrite Hm. simpl.
  apply String.eqb_neq in Hne. by rewrite Hne.
Qed.

Lemma run_sinks_no_response o cb tr : ∀ d,
  d_sinks d = [] → forallb (λ ev, negb (is_response ev)) tr = true →
  d_sinks (run o cb d tr) = [].
Proof.
  induction tr as [| ev tr IH]; intros d Hs Hr; [done |].
  simpl in Hr. apply andb_true_iff in Hr as [Hev Hr].
  simpl. apply IH; [| done].
  destruct ev; try done; unfold_listeners; rewrite ?Hs; split_cases.
Qed.

Lemma sendRequest_sinks o cb : d_sinks (sendRequest o cb) = [].
Proof.
  unfold sendRequest, transport, post. unfold_listeners. split_cases.
Qed.

Lemma meta_header_value headers :
  meta_header headers
  = match header_value headers with
    | Some s => if String.eqb s "" then None else Some s
    | None => None
    end.
Proof.
  unfold meta_header, header_value. destruct headers as [h |]; [| done].
  destruct (h !! "x-optidash-meta") as [s |]; [| done].
  simpl. by destruct (String.eqb s "").
Qed.

(** C4 (as amended).  When a response finds the callback not yet invoked:
    without a metadata header, or with an empty one, the metadata is the
    empty object; a non-empty header that is not JSON ends the dispatch
    with the parse error; metadata with [success === false] ends it with
    the error of its message and the metadata attached.  In both failures
    the listener returns before a sink is attached and before the request
    is resumed, and if this was the first response no sink is attached by
    any later body or destination event. *)
Theorem binary_precheck_precedes_streaming o cb tr headers :
  d_req_listeners (dispatched o cb tr) = true →
  d_called (dispatched o cb tr) = false →
  d_uncaught (dispatched o cb tr) = None →
  (header_value headers = None ∨ header_value headers = Some "" →
     step o cb (dispatched o cb tr) (Response headers)
     = attach o (VObj []) (dispatched o cb tr)) ∧
  (∀ s, header_value headers = Some s → s ≠ "" → JSON_parse s = None →
     d_calls (step o cb (dispatched o cb tr) (Response headers))
     = [mkArgs (Some parse_error) VUndefined VUndefined]) ∧
  (∀ s meta, header_value headers = Some s → s ≠ "" → JSON_parse s = Some meta →
     reports_failure meta = true →
     ∃ m, get meta "message" = Ok m ∧
          d_calls (step o cb (dispatched o cb tr) (Response headers))
          = [mkArgs (Some (Error m)) meta VUndefined]) ∧
  (∀ s, header_value headers = Some s → s ≠ "" →
     (JSON_parse s = None ∨ ∃ meta, JSON_parse s = Some meta ∧ reports_failure meta = true) →
     d_sinks (step o cb (dispatched o cb tr) (Response headers))
     = d_sinks (dispatched o cb tr) ∧
     d_paused (step o cb (dispatched o cb tr) (Response headers))
     = d_paused (dispatched o cb tr) ∧
     ∀ tr', forallb (λ ev, negb (is_response ev)) (tr ++ tr') = true →
            d_sinks (run o cb (step o cb (dispatched o cb tr) (Response headers)) tr') = []).
Proof.
  intros Hl Hc Hu.
  pose proof (live_calls _ (dispatched_guarded o cb tr) Hc (or_intror Hl)) as Hn.
  set (d := dispatched o cb tr) in *.
  assert (∀ s, header_value headers = Some s → s ≠ "" →
            meta_header headers = Some s) as Hhdr.
  { intros s Hs Hne. rewrite meta_header_value, Hs.
    apply String.eqb_neq in Hne. by rewrite Hne. }
  split; [| split; [| split]].
  - intros Hh. unfold step, on_response, check_meta. rewrite Hu, Hl.
    rewrite meta_header_value. by destruct Hh as [-> | ->].
  - intros s Hs Hne Hp. unfold step, on_response.
    rewrite Hu, Hl, (Hhdr s Hs Hne), Hp, Hc.
    unfold_listeners. rewrite Hc, Hn. split_cases.
  - intros s meta Hs Hne Hp Hf. unfold reports_failure in Hf.
    destruct meta; try done. simpl in Hf. eexists; split; [done |].
    unfold step, on_response, check_meta.
    rewrite Hu, Hl, (Hhdr s Hs Hne), Hp, Hc. simpl.
    rewrite Hf. unfold_listeners. rewrite Hc, Hn. split_cases.
  - intros s Hs Hne Hfail.
    assert (d_sinks (step o cb d (Response headers)) = d_sinks d ∧
            d_paused (step o cb d (Response headers)) = d_paused d) as [Hsk Hp].
    { unfold step, on_response, check_meta. rewrite Hu, Hl, (Hhdr s Hs Hne), Hc.
      destruct Hfail as [-> | (meta & -> & Hf)].
      - unfold_listeners. rewrite Hc. split_cases.
      - unfold reports_failure in Hf. destruct meta; try done. simpl in Hf |- *.
        rewrite Hf. unfold_listeners. rewrite Hc. split_cases. }
    split; [done |]. split; [done |].
    intros tr' Hr. rewrite forallb_app in Hr. apply andb_true_iff in Hr as [Hr Hr'].
    apply run_sinks_no_response; [| done]. rewrite Hsk.
    apply run_sinks_no_response; [apply sendRequest_sinks | done].
Qed.

Lemma sendRequest_paused o cb :
  d_req_listeners (sendRequest o cb) = true →
  d_called (sendRequest o cb) = false ∧ d_calls (sendRequest o cb) = [] ∧
  d_uncaught (sendRequest o cb) = None ∧ d_paused (sendRequest o cb) = true.
Proof.
  unfold sendRequest, transport, post. unfold_listeners. split_cases.
Qed.

Lemma run_body_data o cb meta w chunks : ∀ d b,
  d_uncaught d = None → d_paused d = false →
  d_sinks d = [mkSink meta false w true b] →
  run o cb d (BodyData 0 <$> chunks)
  = with_sinks false [mkSink meta false w true (b ++ chunks)] d.
Proof.
  induction chunks as [| c chunks IH]; intros d b Hu Hp Hs.
  - simpl. rewrite app_nil_r, <- Hs, <- Hp. by destruct d.
  - rewrite fmap_cons, run_cons.
    assert (step o cb d (BodyData 0 c)
            = with_sinks false [mkSink meta false w true (b ++ [c])] d) as ->.
    { unfold step, on_data. by rewrite Hu, Hp, Hs. }
    rewrite (IH _ (b ++ [c])); try done.
    by rewrite <- app_assoc.
Qed.

(** C9.  On a [toBuffer] dispatch whose response passes the metadata
    check, the chunks of the body are kept in arrival order and, at the end
    of the body, the callback receives [(null, meta, bytes)] where [bytes]
    is the concatenation of the chunks in that order. *)
Theorem toBuffer_returns_concatenated_body o cb headers meta chunks :
  d_req_listeners (sendRequest o cb) = true →
  o_toBuffer o = true → o_toFile o = false →
  metadata_of headers = Some meta → passes_check meta = true →
  d_calls (dispatched o cb (Response headers :: (BodyData 0 <$> chunks) ++ [BodyEnd 0]))
  = [mkArgs None meta (VBuffer (concat chunks))].
Proof.
  intros Hl Hb Hf Hm Hp.
  destruct (sendRequest_paused o cb Hl) as (Hc & Hn & Hu & _).
  pose proof (sendRequest_sinks o cb) as Hs.
  unfold dispatched. set (d := sendRequest o cb) in *.
  assert (step o cb d (Response headers)
          = with_sinks false [mkSink meta false [] true []] d) as Hr.
  { unfold step, on_response. rewrite Hu, Hl, Hc.
    unfold metadata_of in Hm. unfold passes_check in Hp.
    unfold check_meta, attach. rewrite Hf, Hb, Hs, Hc.
    destruct (meta_header headers) as [s |].
    - rewrite Hm. destruct (get meta "success") as [v |]; [| done].
      apply negb_true_iff in Hp. by rewrite Hp.
    - simplify_eq. done. }
  rewrite run_cons, Hr, run_app.
  rewrite (run_body_data o cb meta [] chunks _ []); try done.
  simpl. unfold step, on_end. simpl. rewrite Hu, Hc. simpl.
  unfold in_listener, call_once. simpl. rewrite Hc.
  destruct (cb _); simpl; by rewrite Hn.
Qed.

End dispatch_facts.


(** ** The builder *)

Ltac unfold_builder :=
  unfold after, upload, fetch, proxy, optimize, flip, resize, scale, crop,
    watermark, mask, filter, adjust, auto, border, padding, store, output,
    webhook, cdn, toJSON, toFile, toBuffer, when, set_errorMessage,
    set_request, set_upload, set_withFetch, set_proxy, set_toJSON, set_toFile,
    set_toBuffer in *.

Ltac in_configuration_errors :=
  unfold configuration_errors; apply list_elem_of_In;
  repeat first [left; reflexivity | right].

Lemma configuration_errors_nonempty m : m ∈ configuration_errors → m ≠ "".
Proof.
  unfold configuration_errors. intros Hm Hn. subst m.
  repeat (apply elem_of_cons in Hm as [Hm | Hm]; [discriminate Hm |]).
  by apply elem_of_nil in Hm.
Qed.

(** C10.  Each of the sixteen operation setters tests only [typeof data
    === "object"]: [null] is stored as it is under the key of the
    operation, and a string or a number leaves the builder unchanged. *)
Theorem setters_store_null_and_ignore_non_objects name op o data :
  (name, op) ∈ setters →
  op data o = (if String.eqb (typeof data) "object" then set_request name data o else o) ∧
  o_request (op VNull o) !! name = Some VNull ∧
  (∀ s, op (VStr s) o = o) ∧
  (∀ n, op (VNum n) o = o).
Proof.
  unfold setters. intros Hin.
  repeat (apply elem_of_cons in Hin as [Hin | Hin];
          [injection Hin as -> ->; unfold_builder; unfold is_object; simpl;
           by rewrite lookup_insert_eq |]).
  by apply elem_of_nil in Hin.
Qed.

(** *** Projections of the options through the conditional assignments *)

Lemma when_error_withUpload c m o :
  o_withUpload (when c (set_errorMessage m) o) = o_withUpload o.
Proof. by destruct c. Qed.

Lemma when_error_withFetch c m o :
  o_withFetch (when c (set_errorMessage m) o) = o_withFetch o.
Proof. by destruct c. Qed.

Lemma when_error_request c m o :
  o_request (when c (set_errorMessage m) o) = o_request o.
Proof. by destruct c. Qed.

Lemma when_error_toJSON c m o :
  o_toJSON (when c (set_errorMessage m) o) = o_toJSON o.
Proof. by destruct c. Qed.

Lemma when_error_toFile c m o :
  o_toFile (when c (set_errorMessage m) o) = o_toFile o.
Proof. by destruct c. Qed.

Lemma when_error_toBuffer c m o :
  o_toBuffer (when c (set_errorMessage m) o) = o_toBuffer o.
Proof. by destruct c. Qed.

Lemma when_error_message c m o :
  o_errorMessage (when c (set_errorMessage m) o)
  = if c then Some m else o_errorMessage o.
Proof. by destruct c. Qed.

Lemma when_error_consistent c m o :
  m ∈ configuration_errors → consistent o → consistent (when c (set_errorMessage m) o).
Proof.
  intros Hm [Hboth Hmsg]. destruct c; [| done]. split; simpl.
  - by eexists.
  - by intros ? [= <-].
Qed.

Lemma set_request_consistent k v o : consistent o → consistent (set_request k v o).
Proof. done. Qed.

Lemma set_proxy_consistent p o : consistent o → consistent (set_proxy p o).
Proof. done. Qed.

Lemma set_toJSON_consistent o : consistent o → consistent (set_toJSON o).
Proof. done. Qed.

Lemma set_toFile_consistent f o : consistent o → consistent (set_toFile f o).
Proof. done. Qed.

Lemma set_toBuffer_consistent o : consistent o → consistent (set_toBuffer o).
Proof. done. Qed.

Ltac preserve_consistent :=
  repeat lazymatch goal with
    | |- consistent (when _ (set_errorMessage _) _) =>
        apply when_error_consistent; [in_configuration_errors |]
    | |- consistent (set_request _ _ _) => apply set_request_consistent
    | |- consistent (set_proxy _ _) => apply set_proxy_consistent
    | |- consistent (set_toJSON _) => apply set_toJSON_consistent
    | |- consistent (set_toFile _ _) => apply set_toFile_consistent
    | |- consistent (set_toBuffer _) => apply set_toBuffer_consistent
    end;
  try done.

Ltac project_options :=
  cbn [this o_withUpload o_withFetch o_request o_errorMessage o_toJSON o_toFile
       o_toBuffer set_request set_proxy set_toJSON set_toFile set_toBuffer];
  rewrite ?when_error_withUpload, ?when_error_withFetch, ?when_error_request,
    ?when_error_toJSON, ?when_error_toFile, ?when_error_toBuffer.

Lemma upload_consistent file o : consistent o → consistent (upload file o).
Proof.
  intros [Hboth Hmsg]. unfold upload, when, set_upload, set_errorMessage.
  split_cases; split; intros; simpl in *; simplify_eq; eauto; try congruence;
    try in_configuration_errors.
Qed.

Lemma fetch_consistent url o : consistent o → consistent (fetch url o).
Proof.
  intros [Hboth Hmsg]. unfold fetch, when, set_withFetch, set_request, set_errorMessage.
  split_cases; split; intros; simpl in *; simplify_eq; eauto; try congruence;
    try in_configuration_errors.
Qed.

Section builder_facts.
Context `{Node}.

Lemma lookup_setter_spec name f :
  lookup_setter name setters = Some f →
  ∀ data o, f data o = when (is_object data) (set_request name data) o.
Proof.
  unfold setters. simpl. intros Hl data o.
  repeat match type of Hl with
         | (if String.eqb ?n ?k then _ else _) = _ =>
             destruct (String.eqb_spec n k) as [-> | _]; [by simplify_eq |]
         end.
  done.
Qed.

Lemma returned_inv o d r : Ok (mkReturned o d) = Ok r → this r = o ∧ sent r = d.
Proof. by intros [= <-]. Qed.

(** The options a sink leaves behind, its conditions read on the options
    it was called on. *)
Lemma toJSON_this cb o :
  this (toJSON cb o)
  = set_toJSON
      (when (negb (o_withUpload o) && negb (o_withFetch o)) (set_errorMessage no_file_input)
      (when (o_toFile o || o_toBuffer o) (set_errorMessage one_response_method)
      (when (negb (is_function cb)) (set_errorMessage toJSON_requires_callback) o))).
Proof. unfold toJSON. cbv zeta. by project_options. Qed.

Lemma toFile_this file cb o r :
  toFile file cb o = Ok r →
  is_function cb = true ∧
  sent r = sendRequest (this r) (forward cb) ∧
  this r
  = set_toFile file (set_request "response" binary_mode
      (when (truthy_opt (o_request o !! "store")) (set_errorMessage toFile_with_store)
      (when (truthy_opt (o_request o !! "webhook")) (set_errorMessage toFile_with_webhook)
      (when (negb (o_withUpload o) && negb (o_withFetch o)) (set_errorMessage no_file_input)
      (when (o_toJSON o || o_toBuffer o) (set_errorMessage one_response_method)
      (when (negb (is_string file) && negb (instanceof_Stream file))
         (set_errorMessage toFile_requires_destination) o)))))).
Proof.
  unfold toFile. destruct (is_function cb); [| discriminate].
  cbn [negb]. cbv zeta. intros Hr. apply returned_inv in Hr as [Hthis Hsent].
  split; [reflexivity |]. split; [by rewrite Hthis |].
  rewrite Hthis. project_options. reflexivity.
Qed.

Lemma toBuffer_this cb o r :
  toBuffer cb o = Ok r →
  is_function cb = true ∧
  sent r = sendRequest (this r) (forward cb) ∧
  this r
  = set_toBuffer (set_request "response" binary_mode
      (when (truthy_opt (o_request o !! "store")) (set_errorMessage toBuffer_with_store)
      (when (truthy_opt (o_request o !! "webhook")) (set_errorMessage toBuffer_with_webhook)
      (when (negb (o_withUpload o) && negb (o_withFetch o)) (set_errorMessage no_file_input)
      (when (o_toJSON o || o_toFile o) (set_errorMessage one_response_method) o))))).
Proof.
  unfold toBuffer. destruct (is_function cb); [| discriminate].
  cbn [negb]. cbv zeta. intros Hr. apply returned_inv in Hr as [Hthis Hsent].
  split; [reflexivity |]. split; [by rewrite Hthis |].
  rewrite Hthis. project_options. reflexivity.
Qed.

Lemma after_consistent o m : consistent o → consistent (after o m).
Proof.
  intros Ho.
  destruct m as [file | url | p | name data | cb | file cb | cb]; unfold after.
  - by apply upload_consistent.
  - by apply fetch_consistent.
  - unfold proxy. case_match; preserve_consistent.
  - destruct (lookup_setter name setters) as [f |] eqn:Hf; [| done].
    rewrite (lookup_setter_spec name f Hf). unfold when. case_match; preserve_consistent.
  - rewrite toJSON_this. preserve_consistent.
  - destruct (toFile file cb o) as [r |] eqn:Hr; [| done].
    destruct (toFile_this file cb o r Hr) as (_ & _ & ->). preserve_consistent.
  - destruct (toBuffer cb o) as [r |] eqn:Hr; [| done].
    destruct (toBuffer_this cb o r Hr) as (_ & _ & ->). preserve_consistent.
Qed.

Lemma new_consistent k : consistent (new k).
Proof. by split. Qed.

Lemma chain_consistent ms : ∀ o, consistent o → consistent (chain o ms).
Proof.
  induction ms as [| m ms IH]; intros o Ho; [done |].
  apply IH, after_consistent, Ho.
Qed.

Lemma after_flags o m :
  o_withUpload (after o m) = o_withUpload o || is_upload m ∧
  o_withFetch (after o m) = o_withFetch o || is_fetch m.
Proof.
  destruct m as [file | url | p | name data | cb | file cb | cb]; unfold after;
    cbn [is_upload is_fetch]; rewrite ?orb_false_r, ?orb_true_r.
  - unfold upload. cbv zeta. cbn [o_withUpload o_withFetch set_upload].
    by rewrite !when_error_withFetch.
  - unfold fetch. cbv zeta. cbn [o_withUpload o_withFetch set_withFetch set_request].
    by rewrite !when_error_withUpload.
  - unfold proxy. by case_match.
  - destruct (lookup_setter name setters) as [f |] eqn:Hf; [| done].
    rewrite (lookup_setter_spec name f Hf). unfold when. by case_match.
  - rewrite toJSON_this. by project_options.
  - destruct (toFile file cb o) as [r |] eqn:Hr; [| done].
    destruct (toFile_this file cb o r Hr) as (_ & _ & ->). by project_options.
  - destruct (toBuffer cb o) as [r |] eqn:Hr; [| done].
    destruct (toBuffer_this cb o r Hr) as (_ & _ & ->). by project_options.
Qed.

Lemma chain_flags ms : ∀ o,
  o_withUpload (chain o ms) = o_withUpload o || existsb is_upload ms ∧
  o_withFetch (chain o ms) = o_withFetch o || existsb is_fetch ms.
Proof.
  induction ms as [| m ms IH]; intros o; simpl.
  - by rewrite !orb_false_r.
  - destruct (IH (after o m)) as [-> ->].
    destruct (after_flags o m) as [-> ->]. by rewrite !orb_assoc.
Qed.

(** The method call that a sink call is. *)
Lemma sink_sent s o r :
  call_sink s o = Ok r → sent r = sendRequest (this r) (forward (sink_callback s)).
Proof.
  destruct s as [cb | file cb | cb]; cbn [call_sink sink_callback]; intros Hr.
  - injection Hr as <-. reflexivity.
  - by destruct (toFile_this file cb o r Hr) as (_ & ? & _).
  - by destruct (toBuffer_this cb o r Hr) as (_ & ? & _).
Qed.

Lemma sink_after s o r :
  call_sink s o = Ok r →
  this r = after o (match s with
                    | to_JSON cb => call_toJSON cb
                    | to_File file cb => call_toFile file cb
                    | to_Buffer cb => call_toBuffer cb
                    end).
Proof.
  destruct s as [cb | file cb | cb]; cbn [call_sink after]; intros Hr.
  - injection Hr as <-. reflexivity.
  - by rewrite Hr.
  - by rewrite Hr.
Qed.

Lemma sink_consistent s o r : consistent o → call_sink s o = Ok r → consistent (this r).
Proof.
  intros Ho Hr. rewrite (sink_after s o r Hr). by apply after_consistent.
Qed.

Lemma sink_flags s o r :
  call_sink s o = Ok r →
  o_withUpload (this r) = o_withUpload o ∧ o_withFetch (this r) = o_withFetch o.
Proof.
  intros Hr. rewrite (sink_after s o r Hr).
  destruct (after_flags o (match s with
                           | to_JSON cb => call_toJSON cb
                           | to_File file cb => call_toFile file cb
                           | to_Buffer cb => call_toBuffer cb
                           end)) as [-> ->].
  destruct s; cbn [is_upload is_fetch]; by rewrite !orb_false_r.
Qed.

Lemma sink_of_function s o :
  is_function (sink_callback s) = true → ∃ r, call_sink s o = Ok r.
Proof.
  destruct s as [cb | file cb | cb]; cbn [call_sink sink_callback]; intros Hf;
    [by eexists | |]; unfold toFile, toBuffer; rewrite Hf; by eexists.
Qed.

Lemma received_rejected s m :
  is_function (sink_callback s) = true →
  received s (d_calls (rejected m (forward (sink_callback s)))) = [error_only m] ∧
  d_thrown (rejected m (forward (sink_callback s))) = None.
Proof.
  destruct s as [cb | file cb | cb]; simpl; intros Hf;
    unfold received2, received3, forward; by rewrite Hf.
Qed.

Lemma sink_rejects s o r m :
  consistent o → call_sink s o = Ok r → o_errorMessage (this r) = Some m →
  m ∈ configuration_errors ∧ sent r = rejected m (forward (sink_callback s)).
Proof.
  intros Ho Hr Hm. destruct (sink_consistent s o r Ho Hr) as [_ Hin].
  split; [by apply Hin |].
  rewrite (sink_sent s o r Hr).
  apply sendRequest_rejected; [done |]. by apply configuration_errors_nonempty, Hin.
Qed.

(** C2.  An options record that carries an error message when it reaches
    [sendRequest] (a non-empty one, as is every message left by the
    builder when a terminal sink dispatches) is rejected by the pre-flight
    check: the callback receives an error with exactly that message, and
    the dispatch holds no request, no opened file and no listener, whatever
    happens afterwards. *)
Theorem preflight_error_rejects_before_any_request o cb m tr :
  o_errorMessage o = Some m →
  (m ≠ "" ∨ ∃ k ms s r, call_sink s (chain (new k) ms) = Ok r ∧ o = this r) →
  dispatched o cb tr = rejected m cb ∧
  d_calls (dispatched o cb tr) = [error_only m] ∧
  d_request (dispatched o cb tr) = None ∧
  d_file (dispatched o cb tr) = None.
Proof.
  intros Hm Hne.
  assert (m ≠ "") as Hne'.
  { destruct Hne as [| (k & ms & s & r & Hr & ->)]; [done |].
    apply configuration_errors_nonempty.
    by apply (sink_consistent s _ r (chain_consistent ms _ (new_consistent k)) Hr). }
  unfold dispatched. rewrite (sendRequest_rejected o cb m Hm Hne').
  by rewrite run_idle by apply rejected_quiescent.
Qed.

(** C5.  Once [upload] and [fetch] have both been called on a builder, in
    either order and among any other calls, every terminal sink ends in a
    configuration error: the dispatch is rejected before any request is
    made, and a callback that is a function receives that error. *)
Theorem upload_and_fetch_yield_configuration_error k ms s :
  existsb is_upload ms = true → existsb is_fetch ms = true →
  (∀ r, call_sink s (chain (new k) ms) = Ok r →
     ∃ m, m ∈ configuration_errors ∧
          sent r = rejected m (forward (sink_callback s)) ∧
          d_request (sent r) = None ∧
          ∀ tr, run (this r) (forward (sink_callback s)) (sent r) tr = sent r) ∧
  (is_function (sink_callback s) = true →
     ∃ r m, call_sink s (chain (new k) ms) = Ok r ∧
            m ∈ configuration_errors ∧
            received s (d_calls (sent r)) = [error_only m] ∧
            d_thrown (sent r) = None).
Proof.
  intros Hu Hf.
  pose proof (chain_consistent ms _ (new_consistent k)) as Ho.
  destruct (chain_flags ms (new k)) as [Hwu Hwf]. rewrite Hu in Hwu. rewrite Hf in Hwf.
  simpl in Hwu, Hwf.
  assert (∀ r, call_sink s (chain (new k) ms) = Ok r →
            ∃ m, m ∈ configuration_errors ∧
                 sent r = rejected m (forward (sink_callback s))) as Hrej.
  { intros r Hr.
    destruct (sink_flags s _ r Hr) as [Hu' Hf']. rewrite Hwu in Hu'. rewrite Hwf in Hf'.
    destruct (sink_consistent s _ r Ho Hr) as [Hboth _].
    destruct (Hboth Hu' Hf') as [m Hm]. exists m.
    by apply (sink_rejects s _ r m Ho Hr). }
  split.
  - intros r Hr. destruct (Hrej r Hr) as (m & Hin & ->).
    exists m. repeat split; try done.
    intros tr. apply run_idle, rejected_quiescent.
  - intros Hfn. destruct (sink_of_function s (chain (new k) ms) Hfn) as [r Hr].
    destruct (Hrej r Hr) as (m & Hin & Hs). exists r, m. rewrite Hs.
    destruct (received_rejected s m Hfn). done.
Qed.

(** C6 (as amended).  On a builder on which neither [upload] nor [fetch]
    has been called, a terminal sink whose callback is a function ends in a
    configuration error before any request is made.  Its message is the one
    about the missing file input for [toJSON], and for [toFile] and
    [toBuffer] unless a webhook or an external storage is configured, whose
    own message then replaces it. *)
Theorem missing_input_yields_configuration_error k ms s :
  existsb is_upload ms = false → existsb is_fetch ms = false →
  is_function (sink_callback s) = true →
  ∃ r, call_sink s (chain (new k) ms) = Ok r ∧
       sent r = rejected (message_without_input s (chain (new k) ms))
                  (forward (sink_callback s)) ∧
       received s (d_calls (sent r))
       = [error_only (message_without_input s (chain (new k) ms))] ∧
       d_request (sent r) = None.
Proof.
  intros Hu Hf Hfn.
  pose proof (chain_consistent ms _ (new_consistent k)) as Ho.
  destruct (chain_flags ms (new k)) as [Hwu Hwf]. rewrite Hu in Hwu. rewrite Hf in Hwf.
  simpl in Hwu, Hwf. set (o := chain (new k) ms) in *.
  destruct (sink_of_function s o Hfn) as [r Hr]. exists r. split; [done |].
  assert (o_errorMessage (this r) = Some (message_without_input s o)) as Hm.
  { destruct s as [cb | file cb | cb]; cbn [call_sink message_without_input] in Hr |- *.
    - injection Hr as <-. rewrite toJSON_this. project_options.
      by rewrite !when_error_message, Hwu, Hwf.
    - destruct (toFile_this file cb o r Hr) as (_ & _ & ->). project_options.
      rewrite !when_error_message, Hwu, Hwf. cbn [negb andb].
      by repeat case_match.
    - destruct (toBuffer_this cb o r Hr) as (_ & _ & ->). project_options.
      rewrite !when_error_message, Hwu, Hwf. cbn [negb andb].
      by repeat case_match. }
  destruct (sink_rejects s o r _ Ho Hr Hm) as [_ Hs]. rewrite Hs.
  destruct (received_rejected s (message_without_input s o) Hfn). done.
Qed.

(** C8 (as amended).  [toFile] and [toBuffer] throw at the call site only
    for a callback that is not a function.  A destination of [toFile] that
    is neither a string nor a stream is not thrown: the call dispatches
    and is rejected through the callback, which receives the message of
    the destination unless one of the later checks of [toFile] applies
    (another response method, no file input, a webhook, external storage),
    whose message replaces it.  Every configuration error recorded when a
    sink with a function callback dispatches is delivered through the
    callback and nothing is thrown. *)
Theorem only_missing_callback_is_thrown k ms :
  (∀ file cb, is_function cb = false →
     toFile file cb (chain (new k) ms) = Throw (Error (VStr toFile_requires_callback)) ∧
     toBuffer cb (chain (new k) ms) = Throw (Error (VStr toBuffer_requires_callback))) ∧
  (∀ file cb, is_function cb = true →
     is_string file || instanceof_Stream file = false →
     ∃ r, toFile file cb (chain (new k) ms) = Ok r ∧
          sent r = rejected (destination_message (chain (new k) ms)) (forward cb) ∧
          received2 cb (d_calls (sent r))
          = [error_only (destination_message (chain (new k) ms))] ∧
          d_thrown (sent r) = None ∧
          d_request (sent r) = None) ∧
  (∀ s r m, is_function (sink_callback s) = true →
     call_sink s (chain (new k) ms) = Ok r → o_errorMessage (this r) = Some m →
     sent r = rejected m (forward (sink_callback s)) ∧
     received s (d_calls (sent r)) = [error_only m] ∧
     d_thrown (sent r) = None).
Proof.
  pose proof (chain_consistent ms _ (new_consistent k)) as Ho.
  set (o := chain (new k) ms) in *.
  assert (∀ s r m, is_function (sink_callback s) = true →
     call_sink s o = Ok r → o_errorMessage (this r) = Some m →
     sent r = rejected m (forward (sink_callback s)) ∧
     received s (d_calls (sent r)) = [error_only m] ∧
     d_thrown (sent r) = None) as Hdeliver.
  { intros s r m Hfn Hr Hm.
    destruct (sink_rejects s o r m Ho Hr Hm) as [_ Hs]. rewrite Hs.
    destruct (received_rejected s m Hfn). done. }
  split; [| split; [| done]].
  - intros file cb Hfn. unfold toFile, toBuffer. by rewrite Hfn.
  - intros file cb Hfn Hfile.
    destruct (sink_of_function (to_File file cb) o Hfn) as [r Hr].
    assert (o_errorMessage (this r) = Some (destination_message o)) as Hm.
    { apply orb_false_iff in Hfile as [Hs Hi]. cbn [call_sink] in Hr.
      destruct (toFile_this file cb o r Hr) as (_ & _ & ->). project_options.
      rewrite !when_error_message, Hs, Hi. cbn [negb andb].
      unfold destination_message. by repeat case_match. }
    exists r. split; [done |].
    destruct (Hdeliver (to_File file cb) r _ Hfn Hr Hm) as (Hs & Hrec & Ht).
    cbn [sink_callback received] in Hs, Hrec.
    repeat split; try done. by rewrite Hs.
Qed.

End builder_facts.

(** ** Further properties of the dispatcher *)

Section dispatch_more.
Context `{Node}.

Lemma sendRequest_uncaught o cb : d_uncaught (sendRequest o cb) = None.
Proof.
  unfold sendRequest, transport, post. unfold_listeners. split_cases.
Qed.

Lemma sendRequest_posted o cb r :
  d_request (sendRequest o cb) = Some r →
  r = reqOptions o (transport_url o) (transport_payload o) ∧
  truthy_str (o_errorMessage o) = false ∧
  (o_withUpload o = true → openable (o_file o) = true) ∧
  request_post_throws r = None ∧
  d_calls (sendRequest o cb) = [] ∧ d_called (sendRequest o cb) = false ∧
  d_thrown (sendRequest o cb) = None ∧
  d_completion (sendRequest o cb) = o_toJSON o ∧
  d_req_listeners (sendRequest o cb) = negb (o_toJSON o) ∧
  d_paused (sendRequest o cb) = negb (o_toJSON o) ∧
  d_file_listener (sendRequest o cb) = o_withUpload o.
Proof.
  unfold sendRequest, transport, post, transport_url, transport_payload,
    upload_source, openable, fs_createReadStream, file_on_error.
  unfold_listeners.
  destruct (o_errorMessage o) as [m |]; simpl;
    [destruct (String.eqb m ""); simpl; [| by destruct (cb _)] |];
    destruct (o_withUpload o); destruct (o_toJSON o);
    destruct (o_file o); simpl; split_cases.
  all: intros [= <-]; repeat split; simpl; done.
Qed.

(** X1.  Whenever [sendRequest] posts a request, the options carry no
    error message, an upload has an openable source, and the request is
    the one of the chosen transport: a multipart form to the upload
    endpoint for [upload], a JSON body to the fetch endpoint otherwise,
    with the key as user name, certificate checks off, the binary header
    for [toFile] and [toBuffer] only and a null encoding for [toBuffer]
    only.  The callback has not been invoked and nothing was thrown. *)
Theorem posted_request_follows_transport o cb r :
  d_request (sendRequest o cb) = Some r →
  truthy_str (o_errorMessage o) = false ∧
  (o_withUpload o = true → openable (o_file o) = true) ∧
  r_url r = (if o_withUpload o then upload_url else fetch_url) ∧
  r_payload r = (if o_withUpload o
                 then FormData (source_part (o_file o)) (o_request o)
                 else Body (o_request o)) ∧
  r_auth r = (o_key o, "") ∧ r_strictSSL r = false ∧ r_json r = true ∧
  r_headers r = (if o_toFile o || o_toBuffer o then [("X-Optidash-Binary", 1%Z)] else []) ∧
  r_encoding r = (if o_toBuffer o then Some VNull else None) ∧
  d_calls (sendRequest o cb) = [] ∧ d_thrown (sendRequest o cb) = None.
Proof.
  intros Hr. destruct (sendRequest_posted o cb r Hr)
    as (-> & He & Hf & _ & Hn & _ & Ht & _).
  repeat split; try done.
Qed.

(** X2.  A proxy set on the builder is used by every request the client
    posts, whatever the transport and the sink; an empty string is stored
    by [proxy] but never used, and a proxy that is not a string is
    ignored. *)
Theorem proxy_is_honoured o cb p r :
  d_request (sendRequest (proxy (VStr p) o) cb) = Some r →
  r_proxy r = (if String.eqb p "" then None else Some p) ∧
  (∀ v, is_string v = false → proxy v (proxy (VStr p) o) = proxy (VStr p) o).
Proof.
  intros Hr. destruct (sendRequest_posted _ cb r Hr) as (-> & _).
  split.
  - simpl. by destruct (String.eqb p "").
  - intros v Hv. by destruct v.
Qed.

Lemma sendRequest_fresh o cb :
  d_called (sendRequest o cb) = false →
  d_file_listener (sendRequest o cb) = true ∨ d_completion (sendRequest o cb) = true
  ∨ d_req_listeners (sendRequest o cb) = true →
  d_calls (sendRequest o cb) = [].
Proof.
  intros Hc Hl. destruct (sendRequest_guarded o cb) as (_ & _ & Hn).
  destruct (Hn Hc) as [| (Hq0 & Hq1 & Hq2 & _)]; [done |].
  destruct Hl as [| [|]]; congruence.
Qed.

Lemma run_after_call o cb d tr a :
  d_called d = true → d_calls d = [a] → d_calls (run o cb d tr) = [a].
Proof. intros Hc Hn. by rewrite run_calls_called. Qed.

(** X3.  The first error of the upload source or of the request is what
    the callback receives, alone, and nothing that happens afterwards (a
    completion, a response, a finished destination) reaches the callback
    again. *)
Theorem first_error_wins o cb e tr :
  d_called (sendRequest o cb) = false →
  (d_file_listener (sendRequest o cb) = true →
     d_calls (dispatched o cb (FileError e :: tr)) = [error_args e]) ∧
  (d_req_listeners (sendRequest o cb) = true →
     d_calls (dispatched o cb (RequestError e :: tr)) = [error_args e]).
Proof.
  intros Hc. pose proof (sendRequest_uncaught o cb) as Hu.
  unfold dispatched. split; intros Hl; rewrite run_cons.
  - pose proof (sendRequest_fresh o cb Hc (or_introl Hl)) as Hn.
    assert (d_called (step o cb (sendRequest o cb) (FileError e)) = true ∧
            d_calls (step o cb (sendRequest o cb) (FileError e)) = [error_args e])
      as [Hc' Hn'].
    { unfold step. rewrite Hu, Hl. unfold on_file_error, in_listener, call_once.
      rewrite Hc. simpl. destruct (cb _); simpl; by rewrite Hn. }
    by apply run_after_call.
  - pose proof (sendRequest_fresh o cb Hc (or_intror (or_intror Hl))) as Hn.
    assert (d_called (step o cb (sendRequest o cb) (RequestError e)) = true ∧
            d_calls (step o cb (sendRequest o cb) (RequestError e)) = [error_args e])
      as [Hc' Hn'].
    { unfold step. rewrite Hu, Hl. unfold on_request_error, in_listener, call_once.
      rewrite Hc. simpl. destruct (cb _); simpl; by rewrite Hn. }
    by apply run_after_call.
Qed.

(** X4.  When [request.post] throws while the request is built (the
    upload source, if any, being a stream or a path [fs] accepts), a
    [toFile] or [toBuffer] dispatch catches the exception and hands it to
    the callback as [(err, null, null)], with no listener on a request; a
    [toJSON] dispatch lets it escape from [sendRequest] and the callback is
    not invoked. *)
Theorem post_exception_caught_for_binary_only o cb e :
  truthy_str (o_errorMessage o) = false →
  source_readable o = true →
  request_post_throws (reqOptions o (transport_url o) (transport_payload o)) = Some e →
  d_request (sendRequest o cb) = None ∧
  d_req_listeners (sendRequest o cb) = false ∧
  d_completion (sendRequest o cb) = false ∧
  (o_toJSON o = true →
     d_thrown (sendRequest o cb) = Some e ∧ d_calls (sendRequest o cb) = []) ∧
  (o_toJSON o = false →
     d_calls (sendRequest o cb) = [mkArgs (Some e) VNull VNull] ∧
     d_thrown (sendRequest o cb) = cb (mkArgs (Some e) VNull VNull)).
Proof.
  unfold sendRequest, transport, post, transport_url, transport_payload,
    upload_source, source_readable, readable, fs_createReadStream, file_on_error.
  unfold_listeners.
  intros He Hf Hp.
  destruct (o_errorMessage o) as [m |]; simpl in He |- *; rewrite ?He; simpl;
    destruct (o_withUpload o); destruct (o_toJSON o);
    destruct (o_file o); simpl in *; try discriminate Hf;
    rewrite ?Hf in *; simpl in *; rewrite ?Hp; simpl; try destruct (cb _); simpl; done.
Qed.

Lemma run_dead o cb tr : ∀ d e, d_uncaught d = Some e → run o cb d tr = d.
Proof.
  induction tr as [| ev tr IH]; intros d e Hu; [done |].
  rewrite run_cons, (step_uncaught o cb d ev e Hu). by apply (IH d e).
Qed.

(** X5.  A metadata header that holds the JSON value [null] makes the
    "response" listener throw while it reads [meta.success]: the callback
    is not invoked, then or by any later event, no sink is attached and the
    request stays paused. *)
Theorem null_metadata_kills_the_listener o cb headers tr :
  d_req_listeners (sendRequest o cb) = true →
  metadata_of headers = Some VNull →
  d_uncaught (dispatched o cb (Response headers :: tr))
  = Some (TypeError "Cannot read properties of null") ∧
  d_calls (dispatched o cb (Response headers :: tr)) = [] ∧
  d_sinks (dispatched o cb (Response headers :: tr)) = [] ∧
  d_paused (dispatched o cb (Response headers :: tr)) = true.
Proof.
  intros Hl Hm. destruct (sendRequest_paused o cb Hl) as (Hc & Hn & Hu & Hp).
  pose proof (sendRequest_sinks o cb) as Hs.
  unfold dispatched. rewrite run_cons.
  assert (step o cb (sendRequest o cb) (Response headers)
          = with_uncaught (Some (TypeError "Cannot read properties of null"))
              (sendRequest o cb)) as Hstep.
  { unfold step, on_response. rewrite Hu, Hl. unfold metadata_of in Hm.
    destruct (meta_header headers) as [s |]; [| done]. by rewrite Hm. }
  rewrite Hstep.
  rewrite (run_dead o cb tr _ (TypeError "Cannot read properties of null")) by done.
  by rewrite <- Hn, <- Hs, <- Hp.
Qed.

Lemma step_before_response o cb d ev :
  is_response ev = false → d_sinks d = [] →
  d_sinks (step o cb d ev) = [] ∧ d_paused (step o cb d ev) = d_paused d ∧
  d_req_listeners (step o cb d ev) = d_req_listeners d.
Proof.
  intros Hev Hs. destruct ev; try done; unfold_listeners; rewrite ?Hs; split_cases.
Qed.

(** X6.  The request of a [toFile] or [toBuffer] dispatch is paused as
    soon as it is posted and stays paused, with no sink attached, until a
    response arrives: errors and stray body or destination events before
    the response deliver no byte anywhere. *)
Theorem paused_until_response o cb tr :
  d_req_listeners (sendRequest o cb) = true →
  forallb (λ ev, negb (is_response ev)) tr = true →
  d_paused (dispatched o cb tr) = true ∧ d_sinks (dispatched o cb tr) = [] ∧
  d_req_listeners (dispatched o cb tr) = true.
Proof.
  intros Hl Hr. destruct (sendRequest_paused o cb Hl) as (_ & _ & _ & Hp).
  pose proof (sendRequest_sinks o cb) as Hs.
  unfold dispatched. revert Hl Hp Hs. generalize (sendRequest o cb).
  induction tr as [| ev tr IH]; intros d Hl Hp Hs; [done |].
  simpl in Hr. apply andb_true_iff in Hr as [Hev Hr].
  apply negb_true_iff in Hev.
  destruct (step_before_response o cb d ev Hev Hs) as (Hs' & Hp' & Hl').
  rewrite run_cons. apply IH; congruence.
Qed.

Lemma step_attach_file o cb headers meta :
  d_req_listeners (sendRequest o cb) = true →
  o_toFile o = true → o_toBuffer o = false → writable (o_outputFile o) = true →
  metadata_of headers = Some meta → passes_check meta = true →
  step o cb (sendRequest o cb) (Response headers)
  = with_sinks false [mkSink meta true [] false []] (sendRequest o cb).
Proof.
  intros Hl Hf Hb Hw Hm Hp.
  destruct (sendRequest_paused o cb Hl) as (Hc & Hn & Hu & _).
  pose proof (sendRequest_sinks o cb) as Hs.
  assert ((if instanceof_Stream (o_outputFile o) then Ok ()
           else fs_createWriteStream (o_outputFile o)) = Ok ()) as Hws.
  { unfold writable, fs_createWriteStream in *.
    destruct (instanceof_Stream (o_outputFile o)); [done |]. simpl in Hw. by rewrite Hw. }
  unfold step, on_response. rewrite Hu, Hl, Hc.
  unfold metadata_of in Hm. unfold passes_check in Hp.
  unfold check_meta, attach. rewrite Hf, Hb, Hs, Hc, Hws.
  destruct (meta_header headers) as [s |].
  - rewrite Hm. destruct (get meta "success") as [v |]; [| done].
    apply negb_true_iff in Hp. by rewrite Hp.
  - simplify_eq. done.
Qed.

Lemma run_body_data_file o cb meta chunks : ∀ d w,
  d_uncaught d = None → d_paused d = false →
  d_sinks d = [mkSink meta true w false []] →
  run o cb d (BodyData 0 <$> chunks)
  = with_sinks false [mkSink meta true (w ++ chunks) false []] d.
Proof.
  induction chunks as [| c chunks IH]; intros d w Hu Hp Hs.
  - simpl. rewrite app_nil_r, <- Hs, <- Hp. by destruct d.
  - rewrite fmap_cons, run_cons.
    assert (step o cb d (BodyData 0 c)
            = with_sinks false [mkSink meta true (w ++ [c]) false []] d) as ->.
    { unfold step, on_data. by rewrite Hu, Hp, Hs. }
    rewrite (IH _ (w ++ [c])); try done.
    by rewrite <- app_assoc.
Qed.

Lemma toFile_streaming o cb headers meta chunks :
  d_req_listeners (sendRequest o cb) = true →
  o_toFile o = true → o_toBuffer o = false → writable (o_outputFile o) = true →
  metadata_of headers = Some meta → passes_check meta = true →
  dispatched o cb (Response headers :: (BodyData 0 <$> chunks))
  = with_sinks false [mkSink meta true chunks false []] (sendRequest o cb).
Proof.
  intros Hl Hf Hb Hw Hm Hp.
  destruct (sendRequest_paused o cb Hl) as (Hc & Hn & Hu & _).
  unfold dispatched. rewrite run_cons, (step_attach_file o cb headers meta) by done.
  by rewrite (run_body_data_file o cb meta chunks _ []).
Qed.

(** X7.  On a [toFile] dispatch whose response passes the metadata check,
    every chunk of the body is written to the destination in arrival
    order; the end of the body does not invoke the callback, the "finish"
    of the destination does, with [(null, meta)], and nothing after it
    invokes the callback again. *)
Theorem toFile_completes_on_finish o cb headers meta chunks tr :
  d_req_listeners (sendRequest o cb) = true →
  o_toFile o = true → o_toBuffer o = false → writable (o_outputFile o) = true →
  metadata_of headers = Some meta → passes_check meta = true →
  d_sinks (dispatched o cb (Response headers :: (BodyData 0 <$> chunks) ++ [BodyEnd 0]))
  = [mkSink meta true chunks false []] ∧
  d_calls (dispatched o cb (Response headers :: (BodyData 0 <$> chunks) ++ [BodyEnd 0]))
  = [] ∧
  d_calls (dispatched o cb
             (Response headers :: (BodyData 0 <$> chunks) ++ BodyEnd 0 :: WsFinish 0 :: tr))
  = [mkArgs None meta VUndefined].
Proof.
  intros Hl Hf Hb Hw Hm Hp.
  destruct (sendRequest_paused o cb Hl) as (Hc & Hn & Hu & _).
  pose proof (toFile_streaming o cb headers meta chunks Hl Hf Hb Hw Hm Hp) as Hd.
  unfold dispatched in *.
  rewrite !app_comm_cons, !run_app, Hd.
  assert (step o cb (with_sinks false [mkSink meta true chunks false []] (sendRequest o cb))
            (BodyEnd 0)
          = with_sinks false [mkSink meta true chunks false []] (sendRequest o cb)) as He.
  { unfold step, on_end. simpl. by rewrite Hu. }
  split; [| split].
  - by rewrite run_cons, He.
  - rewrite run_cons, He. simpl. done.
  - rewrite !run_cons, He. apply run_after_call.
    + unfold step, on_ws_finish. simpl. rewrite Hu, Hc. simpl.
      unfold in_listener, call_once. simpl. rewrite Hc. by destruct (cb _).
    + unfold step, on_ws_finish. simpl. rewrite Hu, Hc. simpl.
      unfold in_listener, call_once. simpl. rewrite Hc.
      destruct (cb _); simpl; by rewrite Hn.
Qed.

(** X8.  An error of the destination of a [toFile] dispatch reaches the
    callback together with the metadata of the response, [(err, meta)], and
    a later "finish" or any other event does not invoke the callback
    again. *)
Theorem toFile_destination_error_carries_metadata o cb headers meta chunks e tr :
  d_req_listeners (sendRequest o cb) = true →
  o_toFile o = true → o_toBuffer o = false → writable (o_outputFile o) = true →
  metadata_of headers = Some meta → passes_check meta = true →
  d_calls (dispatched o cb
             (Response headers :: (BodyData 0 <$> chunks) ++ WsError 0 e :: tr))
  = [mkArgs (Some e) meta VUndefined].
Proof.
  intros Hl Hf Hb Hw Hm Hp.
  destruct (sendRequest_paused o cb Hl) as (Hc & Hn & Hu & _).
  pose proof (toFile_streaming o cb headers meta chunks Hl Hf Hb Hw Hm Hp) as Hd.
  unfold dispatched in *.
  rewrite !app_comm_cons, !run_app, Hd, run_cons.
  apply run_after_call.
  - unfold step, on_ws_error. simpl. rewrite Hu, Hc. simpl.
    unfold in_listener, call_once. simpl. rewrite Hc. by destruct (cb _).
  - unfold step, on_ws_error. simpl. rewrite Hu, Hc. simpl.
    unfold in_listener, call_once. simpl. rewrite Hc.
      destruct (cb _); simpl; by rewrite Hn.
Qed.

Lemma sendRequest_posts o cb :
  truthy_str (o_errorMessage o) = false →
  source_readable o = true →
  request_post_throws (reqOptions o (transport_url o) (transport_payload o)) = None →
  d_request (sendRequest o cb)
  = Some (reqOptions o (transport_url o) (transport_payload o)) ∧
  d_calls (sendRequest o cb) = [] ∧ d_thrown (sendRequest o cb) = None.
Proof.
  unfold sendRequest, transport, post, transport_url, transport_payload,
    upload_source, source_readable, readable, fs_createReadStream, file_on_error.
  unfold_listeners.
  intros He Hf Hp.
  destruct (o_errorMessage o) as [m |]; simpl in He |- *; rewrite ?He; simpl;
    destruct (o_withUpload o); destruct (o_toJSON o);
    destruct (o_file o); simpl in *; try discriminate Hf;
    rewrite ?Hf in *; simpl in *; rewrite ?Hp; simpl; done.
Qed.

Lemma sendRequest_unreadable o cb :
  truthy_str (o_errorMessage o) = false →
  openable (o_file o) = true → source_readable o = false →
  sendRequest o cb = with_thrown (Some fs_path_error) idle.
Proof.
  unfold sendRequest, transport, upload_source, openable, source_readable, readable,
    fs_createReadStream.
  intros He Ho Hf.
  destruct (o_errorMessage o) as [m |]; simpl in He |- *; rewrite ?He; simpl;
    destruct (o_withUpload o); try discriminate Hf;
    destruct (o_file o); simpl in *; try discriminate; by rewrite Hf.
Qed.

(** X16.  Whatever the options, the callback and the events that follow
    [sendRequest], the callback is invoked at most once, and once it has
    been invoked no later event invokes it again or changes what it
    received. *)
Theorem callback_at_most_once o cb tr :
  (length (d_calls (dispatched o cb tr)) ≤ 1)%nat ∧
  (∀ a tr', d_calls (dispatched o cb tr) = [a] →
            d_calls (dispatched o cb (tr ++ tr')) = [a]).
Proof.
  split; [apply (dispatched_guarded o cb tr) |].
  intros a tr' Ha. unfold dispatched in *. rewrite run_app.
  destruct (dispatched_guarded o cb tr) as (_ & _ & Hn). unfold dispatched in Hn.
  destruct (d_called (run o cb (sendRequest o cb) tr)) eqn:Hc.
  - by rewrite run_calls_called.
  - destruct (Hn eq_refl) as [Hnil | Hq]; [congruence |].
    by rewrite run_idle.
Qed.

End dispatch_more.
(** ** Further properties of the builder *)

Lemma setters_spec name op :
  (name, op) ∈ setters →
  ∀ data o, op data o = when (is_object data) (set_request name data) o.
Proof.
  unfold setters. intros Hin data o.
  repeat (apply elem_of_cons in Hin as [Hin | Hin]; [by injection Hin as -> -> |]).
  by apply elem_of_nil in Hin.
Qed.

(** X9.  An operation setter called with an object stores it under its
    own key and changes nothing else: the other keys of the request, the
    error message and the input flags stay as they were.  Calling the same
    setter again replaces the earlier value, and setters of different
    operations commute. *)
Theorem setters_compose name op name' op' o d1 d2 :
  (name, op) ∈ setters → (name', op') ∈ setters →
  is_object d1 = true → is_object d2 = true →
  o_request (op d1 o) !! name = Some d1 ∧
  (∀ k, k ≠ name → o_request (op d1 o) !! k = o_request o !! k) ∧
  op d2 (op d1 o) = op d2 o ∧
  (name ≠ name' → op d1 (op' d2 o) = op' d2 (op d1 o)) ∧
  o_errorMessage (op d1 o) = o_errorMessage o ∧
  o_withUpload (op d1 o) = o_withUpload o ∧
  o_withFetch (op d1 o) = o_withFetch o.
Proof.
  intros Hop Hop' H1 H2.
  rewrite !(setters_spec name op Hop), !(setters_spec name' op' Hop').
  unfold when. rewrite H1, H2. unfold set_request. simpl.
  split; [by rewrite lookup_insert_eq |].
  split; [intros k Hk; by rewrite lookup_insert_ne |].
  split; [by rewrite insert_insert_eq |].
  split; [| done].
  intros Hne. by rewrite (insert_insert_ne _ name name').
Qed.

Lemma when_error_file c m o : o_file (when c (set_errorMessage m) o) = o_file o.
Proof. by destruct c. Qed.

Lemma when_error_key c m o : o_key (when c (set_errorMessage m) o) = o_key o.
Proof. by destruct c. Qed.

Lemma when_error_proxy c m o : o_proxy (when c (set_errorMessage m) o) = o_proxy o.
Proof. by destruct c. Qed.

Ltac project_fields :=
  cbn [this o_key o_request o_errorMessage o_withUpload o_withFetch o_file o_proxy
       o_toJSON o_toFile o_toBuffer o_outputFile set_request set_proxy set_upload
       set_withFetch set_toJSON set_toFile set_toBuffer];
  rewrite ?when_error_withUpload, ?when_error_withFetch, ?when_error_request,
    ?when_error_toJSON, ?when_error_toFile, ?when_error_toBuffer,
    ?when_error_file, ?when_error_key, ?when_error_proxy.

Section builder_more.
Context `{Node}.

Lemma chain_app o ms1 ms2 : chain o (ms1 ++ ms2) = chain (chain o ms1) ms2.
Proof. apply fold_left_app. Qed.

(** The fields a method call leaves alone. *)
Lemma after_fields o m :
  o_key (after o m) = o_key o ∧
  (is_upload m = false → o_file (after o m) = o_file o) ∧
  o_toJSON (after o m) = o_toJSON o || sets_toJSON m ∧
  o_toFile (after o m) = o_toFile o || sets_toFile m ∧
  o_toBuffer (after o m) = o_toBuffer o || sets_toBuffer m.
Proof.
  destruct m as [file | url | p | name data | cb | file cb | cb]; unfold after;
    cbn [is_upload sets_toJSON sets_toFile sets_toBuffer];
    rewrite ?orb_false_r, ?orb_true_r.
  - unfold upload. cbv zeta. by project_fields.
  - unfold fetch. cbv zeta. by project_fields.
  - unfold proxy. by case_match.
  - destruct (lookup_setter name setters) as [f |] eqn:Hf; [| done].
    rewrite (lookup_setter_spec name f Hf). unfold when. by case_match.
  - rewrite toJSON_this. by project_fields.
  - destruct (toFile file cb o) as [r |] eqn:Hr.
    + destruct (toFile_this file cb o r Hr) as (-> & _ & ->). project_fields.
      by rewrite ?orb_true_r, ?orb_false_r.
    + unfold toFile in Hr. destruct (is_function cb); [done |].
      by rewrite ?orb_false_r.
  - destruct (toBuffer cb o) as [r |] eqn:Hr.
    + destruct (toBuffer_this cb o r Hr) as (-> & _ & ->). project_fields.
      by rewrite ?orb_true_r, ?orb_false_r.
    + unfold toBuffer in Hr. destruct (is_function cb); [done |].
      by rewrite ?orb_false_r.
Qed.

Lemma chain_fields ms : ∀ o,
  o_key (chain o ms) = o_key o ∧
  o_toJSON (chain o ms) = o_toJSON o || existsb sets_toJSON ms ∧
  o_toFile (chain o ms) = o_toFile o || existsb sets_toFile ms ∧
  o_toBuffer (chain o ms) = o_toBuffer o || existsb sets_toBuffer ms.
Proof.
  induction ms as [| m ms IH]; intros o; simpl.
  - by rewrite !orb_false_r.
  - destruct (IH (after o m)) as (-> & -> & -> & ->).
    destruct (after_fields o m) as (-> & _ & -> & -> & ->). by rewrite !orb_assoc.
Qed.

(** The message a sink leaves, read on the options it was called on. *)
Lemma sink_message s o r :
  call_sink s o = Ok r → o_errorMessage (this r) = sink_precedence s o.
Proof.
  destruct s as [cb | file cb | cb]; cbn [call_sink sink_precedence]; intros Hr.
  - injection Hr as <-. rewrite toJSON_this. project_fields.
    by rewrite !when_error_message.
  - destruct (toFile_this file cb o r Hr) as (_ & _ & ->). project_fields.
    by rewrite !when_error_message.
  - destruct (toBuffer_this cb o r Hr) as (_ & _ & ->). project_fields.
    by rewrite !when_error_message.
Qed.

Lemma after_error_sticky o m :
  is_Some (o_errorMessage o) → is_Some (o_errorMessage (after o m)).
Proof.
  intros He.
  destruct m as [file | url | p | name data | cb | file cb | cb]; unfold after.
  - unfold upload. cbv zeta. project_fields. rewrite !when_error_message.
    repeat case_match; by eauto.
  - unfold fetch. cbv zeta. project_fields. rewrite !when_error_message.
    repeat case_match; by eauto.
  - unfold proxy. by case_match.
  - destruct (lookup_setter name setters) as [f |] eqn:Hf; [| done].
    rewrite (lookup_setter_spec name f Hf). unfold when. by case_match.
  - rewrite (sink_message (to_JSON cb) o (toJSON cb o) eq_refl).
    cbn [sink_precedence]. repeat case_match; by eauto.
  - destruct (toFile file cb o) as [r |] eqn:Hr; [| done].
    rewrite (sink_message (to_File file cb) o r Hr).
    cbn [sink_precedence]. repeat case_match; by eauto.
  - destruct (toBuffer cb o) as [r |] eqn:Hr; [| done].
    rewrite (sink_message (to_Buffer cb) o r Hr).
    cbn [sink_precedence]. repeat case_match; by eauto.
Qed.

Lemma chain_error_sticky ms : ∀ o,
  is_Some (o_errorMessage o) → is_Some (o_errorMessage (chain o ms)).
Proof.
  induction ms as [| m ms IH]; intros o He; [done |].
  apply IH, after_error_sticky, He.
Qed.

Lemma rejected_request m cb : d_request (rejected m cb) = None.
Proof. done. Qed.

(** X10.  The error message with which a sink dispatches is fixed by
    precedence: for [toFile] and [toBuffer] external storage, then
    webhook, then the missing input, then another response method, then
    (for [toFile]) a malformed destination; for [toJSON] the missing input,
    then another response method, then a callback that is not a function;
    and the message recorded earlier on the builder when none applies.  A
    dispatch with a message is rejected with exactly that message before
    any request. *)
Theorem sink_reports_by_precedence k ms s r :
  call_sink s (chain (new k) ms) = Ok r →
  o_errorMessage (this r) = sink_precedence s (chain (new k) ms) ∧
  (∀ m, sink_precedence s (chain (new k) ms) = Some m →
     sent r = rejected m (forward (sink_callback s)) ∧ d_request (sent r) = None).
Proof.
  intros Hr. pose proof (sink_message s _ r Hr) as Hm.
  split; [done |]. intros m Hs. rewrite Hs in Hm.
  pose proof (chain_consistent ms _ (new_consistent k)) as Ho.
  destruct (sink_rejects s _ r m Ho Hr Hm) as [_ ->]. done.
Qed.

(** X11.  Two response methods on one builder: once a call has set the
    flag of one sink ([toJSON] always does, [toFile] and [toBuffer] when
    their callback is a function), every later call of a different sink
    that dispatches is rejected with a configuration error and posts no
    request. *)
Theorem second_sink_is_rejected k ms s r :
  other_sink_called s ms = true →
  call_sink s (chain (new k) ms) = Ok r →
  ∃ m, m ∈ configuration_errors ∧
       sent r = rejected m (forward (sink_callback s)) ∧
       d_request (sent r) = None.
Proof.
  intros Hother Hr.
  pose proof (chain_consistent ms _ (new_consistent k)) as Ho.
  destruct (chain_fields ms (new k)) as (_ & Hj & Hf & Hb). simpl in Hj, Hf, Hb.
  assert (is_Some (sink_precedence s (chain (new k) ms))) as [m Hm].
  { destruct s as [cb | file cb | cb]; cbn [other_sink_called sink_precedence] in *;
      rewrite ?Hj, ?Hf, ?Hb, Hother; repeat case_match; by eauto. }
  rewrite <- (sink_message s _ r Hr) in Hm.
  destruct (sink_rejects s _ r m Ho Hr Hm) as [Hin ->]. by exists m.
Qed.

(** X12.  A configuration error is never cleared: once some call has
    left an error message on the builder, whatever is called afterwards
    (a valid [upload] or [fetch] included), every sink that dispatches is
    rejected with a configuration error and posts no request. *)
Theorem recorded_error_is_never_cleared k ms1 ms2 s r :
  is_Some (o_errorMessage (chain (new k) ms1)) →
  call_sink s (chain (new k) (ms1 ++ ms2)) = Ok r →
  ∃ m, m ∈ configuration_errors ∧
       sent r = rejected m (forward (sink_callback s)) ∧
       d_request (sent r) = None.
Proof.
  intros He Hr.
  pose proof (chain_consistent (ms1 ++ ms2) _ (new_consistent k)) as Ho.
  assert (is_Some (o_errorMessage (this r))) as [m Hm].
  { rewrite (sink_after s _ r Hr). apply after_error_sticky.
    rewrite chain_app. by apply chain_error_sticky. }
  destruct (sink_rejects s _ r m Ho Hr Hm) as [Hin ->]. by exists m.
Qed.

(** X13.  [toJSON] called with something that is not a function never
    posts a request, on any builder: the options always carry an error
    message, and the attempt to hand it to the callback throws a TypeError
    out of [toJSON]. *)
Theorem toJSON_without_function_throws o cb :
  is_function cb = false →
  ∃ m, m ∈ [toJSON_requires_callback; one_response_method; no_file_input] ∧
       sent (toJSON cb o) = rejected m (forward cb) ∧
       d_thrown (sent (toJSON cb o)) = Some (TypeError "cb is not a function") ∧
       d_request (sent (toJSON cb o)) = None ∧
       received2 cb (d_calls (sent (toJSON cb o))) = [].
Proof.
  intros Hfn.
  pose proof (sink_message (to_JSON cb) o (toJSON cb o) eq_refl) as Hm.
  cbn [sink_precedence] in Hm. rewrite Hfn in Hm. cbn [negb] in Hm.
  assert (∃ m, m ∈ [toJSON_requires_callback; one_response_method; no_file_input] ∧
               o_errorMessage (this (toJSON cb o)) = Some m) as (m & Hin & Hm').
  { rewrite Hm. repeat case_match; eexists; (split; [| done]);
      apply list_elem_of_In; repeat first [left; reflexivity | right]. }
  exists m. split; [done |].
  assert (sent (toJSON cb o) = rejected m (forward cb)) as ->.
  { rewrite (sink_sent (to_JSON cb) o (toJSON cb o) eq_refl).
    apply sendRequest_rejected; [done |]. intros ->.
    repeat (apply elem_of_cons in Hin as [Hin | Hin]; [discriminate Hin |]).
    by apply elem_of_nil in Hin. }
  unfold rejected, forward, received2. simpl. by rewrite Hfn.
Qed.

Lemma after_message_none o m :
  o_errorMessage (after o m) = None → o_errorMessage o = None.
Proof.
  intros Hn. destruct (o_errorMessage o) as [e |] eqn:He; [| done].
  destruct (after_error_sticky o m) as [e' He']; [by rewrite He; eexists |].
  congruence.
Qed.

Lemma after_well_sourced o m : well_sourced o → well_sourced (after o m).
Proof.
  intros Hw Hu He.
  destruct (is_upload m) eqn:Hm.
  - destruct m as [file | | | | | |]; try done. revert He.
    unfold after, upload, openable. cbv zeta. project_fields.
    rewrite !when_error_message.
    destruct (negb (is_string file) && negb (instanceof_Stream file)) eqn:Hc;
      [by repeat case_match |].
    intros _. destruct (is_string file); [done |].
    by destruct (instanceof_Stream file).
  - destruct (after_fields o m) as (_ & Hf & _). rewrite (Hf Hm).
    destruct (after_flags o m) as [Hfl _]. rewrite Hm, orb_false_r in Hfl.
    apply Hw; [congruence |]. by apply (after_message_none o m).
Qed.

Lemma chain_well_sourced ms : ∀ o, well_sourced o → well_sourced (chain o ms).
Proof.
  induction ms as [| m ms IH]; intros o Ho; [done |].
  apply IH, after_well_sourced, Ho.
Qed.

Lemma new_well_sourced k : well_sourced (new k).
Proof. by intros Hu. Qed.

Ltac no_error_cases He :=
  repeat match type of He with
         | (if ?c then _ else _) = None => destruct c eqn:?; [discriminate He |]
         end.

(** X14.  A sink that dispatches with no error message on the builder
    has exactly one transport: the builder has used [upload] or [fetch] but
    not both, and the callback is a function.  If the upload source, when
    there is one, is a stream or a path [fs] accepts, exactly one request
    is posted: it goes to the endpoint of that transport with the
    accumulated request as its multipart data or JSON body, it is
    authenticated with the key given to the constructor, and it asks for a
    binary response exactly for [toFile] and [toBuffer] (whose request also
    carries the binary response mode); the callback has not been invoked
    yet and nothing is thrown.  If the upload path holds a null byte,
    [fs.createReadStream] throws out of the sink: no request is posted and
    the callback is not invoked. *)
Theorem valid_chain_posts_one_request k ms s r :
  (∀ q, request_post_throws q = None) →
  call_sink s (chain (new k) ms) = Ok r →
  o_errorMessage (this r) = None →
  xorb (o_withUpload (this r)) (o_withFetch (this r)) = true ∧
  is_function (sink_callback s) = true ∧
  match s with
  | to_JSON _ => True
  | _ => o_request (this r) !! "response" = Some binary_mode
  end ∧
  (source_readable (this r) = true →
     ∃ q, d_request (sent r) = Some q ∧
          r_url q = transport_url (this r) ∧
          r_payload q = transport_payload (this r) ∧
          r_auth q = (k, "") ∧
          r_headers q = sink_headers s ∧
          r_encoding q = sink_encoding s ∧
          d_calls (sent r) = [] ∧ d_thrown (sent r) = None) ∧
  (source_readable (this r) = false →
     sent r = with_thrown (Some fs_path_error) idle ∧
     d_request (sent r) = None ∧ d_calls (sent r) = []).
Proof.
  intros Hpost Hr He.
  set (o := chain (new k) ms) in *.
  pose proof (chain_consistent ms _ (new_consistent k)) as Ho.
  pose proof (chain_well_sourced ms _ (new_well_sourced k)) as Hw.
  destruct (chain_fields ms (new k)) as (Hk & _). simpl in Hk. fold o in Ho, Hw, Hk.
  pose proof (sink_consistent s o r Ho Hr) as [Hboth _].
  pose proof (sink_after s o r Hr) as Hafter.
  assert (well_sourced (this r)) as Hw' by (rewrite Hafter; by apply after_well_sourced).
  assert (o_key (this r) = k) as Hk'.
  { rewrite Hafter. destruct (after_fields o (match s with
                           | to_JSON cb => call_toJSON cb
                           | to_File file cb => call_toFile file cb
                           | to_Buffer cb => call_toBuffer cb
                           end)) as (-> & _). done. }
  destruct (sink_flags s o r Hr) as [Hfu Hff].
  pose proof (sink_message s o r Hr) as Hm. rewrite He in Hm. symmetry in Hm.
  assert (o_withUpload o || o_withFetch o = true ∧
          o_toFile (this r) || o_toBuffer (this r)
          = (match s with to_JSON _ => false | _ => true end) ∧
          o_toBuffer (this r) = (match s with to_Buffer _ => true | _ => false end) ∧
          match s with
          | to_JSON _ => True
          | _ => o_request (this r) !! "response" = Some binary_mode
          end ∧
          is_function (sink_callback s) = true) as (Hin & Hhd & Hen & Hresp & Hfn).
  { destruct s as [cb | file cb | cb]; cbn [call_sink sink_precedence sink_callback] in *.
    - injection Hr as <-. rewrite toJSON_this. project_fields.
      no_error_cases Hm.
      repeat match goal with Hx : _ = false |- _ => rewrite Hx end.
      split; [by destruct (o_withUpload o), (o_withFetch o) |].
      repeat split; try done.
      + by destruct (o_toFile o), (o_toBuffer o).
      + by destruct (is_function cb).
    - destruct (toFile_this file cb o r Hr) as (Hfn & _ & ->). project_fields.
      no_error_cases Hm.
      split; [by destruct (o_withUpload o), (o_withFetch o) |].
      repeat split; try done.
      + by destruct (o_toJSON o), (o_toBuffer o).
      + by rewrite lookup_insert_eq.
    - destruct (toBuffer_this cb o r Hr) as (Hfn & _ & ->). project_fields.
      no_error_cases Hm.
      split; [by destruct (o_withUpload o), (o_withFetch o) |].
      repeat split; try done.
      + by rewrite orb_true_r.
      + by rewrite lookup_insert_eq. }
  split.
  { destruct (o_withUpload (this r)) eqn:Hu, (o_withFetch (this r)) eqn:Hf;
      try done.
    - destruct (Hboth eq_refl eq_refl) as [? ?]. congruence.
    - by rewrite <- Hfu, <- Hff in Hin. }
  split; [done |]. split; [done |]. split.
  - intros Hsrc.
    destruct (sendRequest_posts (this r) (forward (sink_callback s)))
      as (Hq & Hc & Ht); [by rewrite He | done | by apply Hpost |].
    rewrite <- (sink_sent s o r Hr) in Hq, Hc, Ht.
    eexists. split; [exact Hq |].
    simpl. rewrite Hhd, Hen, Hk'.
    repeat split; try done; by destruct s.
  - intros Hsrc.
    assert (sent r = with_thrown (Some fs_path_error) idle) as ->.
    { rewrite (sink_sent s o r Hr). apply sendRequest_unreadable; [by rewrite He | | done].
      apply Hw'; [| done]. unfold source_readable in Hsrc.
      by destruct (o_withUpload (this r)). }
    done.
Qed.

(** X15.  An [upload] whose argument is neither a string nor a stream (a
    Buffer included) and a [fetch] without a URL are refused: wherever such
    a call occurs in a chain, every sink that dispatches afterwards is
    rejected with a configuration error and posts no request. *)
Theorem malformed_input_is_refused k ms1 m0 ms2 s r :
  malformed_input m0 = true →
  call_sink s (chain (new k) (ms1 ++ m0 :: ms2)) = Ok r →
  ∃ m, m ∈ configuration_errors ∧
       sent r = rejected m (forward (sink_callback s)) ∧
       d_request (sent r) = None.
Proof.
  intros Hbad Hr.
  pose proof (chain_consistent (ms1 ++ m0 :: ms2) _ (new_consistent k)) as Ho.
  assert (∀ o, is_Some (o_errorMessage (after o m0))) as Hrec.
  { intros o. destruct m0 as [file | url | | | | |]; try done;
      cbn [malformed_input] in Hbad; unfold after.
    - unfold upload, openable in *. cbv zeta. project_fields.
      rewrite !when_error_message. apply negb_true_iff, orb_false_iff in Hbad as [-> ->].
      simpl. case_match; by eexists.
    - unfold fetch. cbv zeta. project_fields.
      rewrite !when_error_message, Hbad. case_match; by eexists. }
  assert (is_Some (o_errorMessage (this r))) as [m Hm].
  { rewrite (sink_after s _ r Hr). apply after_error_sticky.
    rewrite chain_app. simpl. apply chain_error_sticky, Hrec. }
  destruct (sink_rejects s _ r m Ho Hr Hm) as [Hin ->]. by exists m.
Qed.

End builder_more.
(** ** The properties at concrete inputs *)

#[local] Existing Instance examples.runtime.

(** C1 at work: [sendRequest] on an upload of a Buffer under [toBuffer],
    followed by the events of a whole response. *)
Lemma buffer_upload_example_never_calls_back :
  d_calls (dispatched
             (set_toBuffer (set_upload (VBuffer [x01; x02; x03]) (new "your-api-key")))
             (forward examples.fn)
             [Response (examples.headers examples.meta_success);
              BodyData 0 [x01]; BodyEnd 0; RequestError examples.ENOENT])
  = [].
Proof.
  apply (buffer_upload_never_invokes_callback
           (set_toBuffer (set_upload (VBuffer [x01; x02; x03]) (new "your-api-key")))
           (forward examples.fn) [x01; x02; x03]).
  - reflexivity.
  - reflexivity.
  - reflexivity.
Defined.

(** C2 at work: [toJSON] on a builder without input is rejected with the
    message of the missing input, and later events change nothing. *)
Lemma preflight_rejects_missing_input :
  dispatched (chain examples.opti [call_toJSON examples.fn]) (forward examples.fn)
    [Complete None VNull; RequestError examples.ENOENT]
  = rejected no_file_input (forward examples.fn).
Proof.
  apply (preflight_error_rejects_before_any_request
           (chain examples.opti [call_toJSON examples.fn]) (forward examples.fn)
           no_file_input).
  - vm_compute. reflexivity.
  - right. exists "your-api-key", [], (to_JSON examples.fn). eexists.
    split; reflexivity.
Defined.

(** C3 at work: the failed round trip of the specification. *)
Lemma json_sink_reports_bad_input :
  d_calls (step (chain examples.opti [call_fetch examples.image_url; call_toJSON examples.fn])
             (forward examples.fn)
             (dispatched
                (chain examples.opti [call_fetch examples.image_url; call_toJSON examples.fn])
                (forward examples.fn) [])
             (Complete None
                (VObj [("success", VBool false); ("message", VStr "bad input")])))
  = [mkArgs (Some (Error (VStr "bad input")))
       (VObj [("success", VBool false); ("message", VStr "bad input")]) VUndefined].
Proof.
  apply (proj2 (@json_sink_error_follows_body_message examples.runtime
                  (chain examples.opti [call_fetch examples.image_url; call_toJSON examples.fn])
                  (forward examples.fn) [] None
                  (VObj [("success", VBool false); ("message", VStr "bad input")])
                  ltac:(vm_compute; reflexivity) ltac:(vm_compute; reflexivity)
                  ltac:(vm_compute; reflexivity))
               [("success", VBool false); ("message", VStr "bad input")] "bad input").
  - reflexivity.
  - reflexivity.
  - reflexivity.
  - discriminate.
Defined.

(** C3 as stated fails: a body that reports success and carries a message
    still reaches the callback with an error built from that message. *)
Lemma json_sink_error_from_successful_body :
  assoc "success" [("success", VBool true); ("message", VStr "ok")] = VBool true ∧
  d_calls (dispatched
             (chain examples.opti [call_fetch examples.image_url; call_toJSON examples.fn])
             (forward examples.fn)
             [Complete None (VObj [("success", VBool true); ("message", VStr "ok")])])
  = [mkArgs (Some (Error (VStr "ok")))
       (VObj [("success", VBool true); ("message", VStr "ok")]) VUndefined].
Proof. split; vm_compute; reflexivity. Qed.

(** C4 at work: failure metadata on the first response of a [toFile]
    dispatch ends it before anything is attached. *)
Lemma failure_metadata_stops_before_streaming :
  d_sinks (run (chain examples.opti
                  [call_fetch examples.image_url;
                   call_toFile (VStr "path/to/output.png") examples.fn])
             (forward examples.fn)
             (step (chain examples.opti
                      [call_fetch examples.image_url;
                       call_toFile (VStr "path/to/output.png") examples.fn])
                (forward examples.fn)
                (dispatched
                   (chain examples.opti
                      [call_fetch examples.image_url;
                       call_toFile (VStr "path/to/output.png") examples.fn])
                   (forward examples.fn) [])
                (Response (examples.headers examples.meta_failure)))
             [BodyData 0 [x01; x02; x03]; BodyEnd 0; WsFinish 0]) = [].
Proof.
  apply (proj2 (proj2 (proj2 (proj2 (proj2
     (@binary_precheck_precedes_streaming examples.runtime
        (chain examples.opti
           [call_fetch examples.image_url;
            call_toFile (VStr "path/to/output.png") examples.fn])
        (forward examples.fn) [] (examples.headers examples.meta_failure)
        ltac:(vm_compute; reflexivity) ltac:(vm_compute; reflexivity)
        ltac:(vm_compute; reflexivity))))
     examples.meta_failure ltac:(vm_compute; reflexivity) ltac:(discriminate)
     ltac:(right; eexists; split; vm_compute; reflexivity)))).
  vm_compute. reflexivity.
Defined.

(** C4 as stated fails: a metadata header that is present and empty is
    not JSON, yet it is taken as absent: no parse error reaches the
    callback, the body is buffered and handed over with empty metadata. *)
Lemma empty_metadata_header_is_not_a_parse_error :
  header_value (examples.headers "") = Some "" ∧
  JSON_parse "" = None ∧
  d_calls (dispatched
             (chain examples.opti
                [call_fetch examples.image_url; call_toBuffer examples.fn])
             (forward examples.fn)
             [Response (examples.headers ""); BodyData 0 [x01; x02; x03]; BodyEnd 0])
  = [mkArgs None (VObj []) (VBuffer [x01; x02; x03])].
Proof. repeat split; vm_compute; reflexivity. Qed.

(** C5 at work: [upload] then [fetch], then [toJSON]. *)
Lemma upload_then_fetch_is_rejected :
  ∃ r m, call_sink (to_JSON examples.fn)
           (chain (new "your-api-key")
              [call_upload (VStr "path/to/input.jpg"); call_fetch examples.image_url])
         = Ok r ∧
         m ∈ configuration_errors ∧
         received (to_JSON examples.fn) (d_calls (sent r)) = [error_only m] ∧
         d_thrown (sent r) = None.
Proof.
  apply (proj2 (upload_and_fetch_yield_configuration_error "your-api-key"
                  [call_upload (VStr "path/to/input.jpg"); call_fetch examples.image_url]
                  (to_JSON examples.fn) eq_refl eq_refl)).
  reflexivity.
Defined.

(** C6 at work: [toJSON] on a builder with a webhook and no input. *)
Lemma toJSON_without_input_is_rejected :
  ∃ r, call_sink (to_JSON examples.fn)
         (chain (new "your-api-key")
            [call_setter "webhook" (VObj [("url", VStr "https://hook")])])
       = Ok r ∧
       sent r = rejected
                  (message_without_input (to_JSON examples.fn)
                     (chain (new "your-api-key")
                        [call_setter "webhook" (VObj [("url", VStr "https://hook")])]))
                  (forward (sink_callback (to_JSON examples.fn))) ∧
       received (to_JSON examples.fn) (d_calls (sent r))
       = [error_only
            (message_without_input (to_JSON examples.fn)
               (chain (new "your-api-key")
                  [call_setter "webhook" (VObj [("url", VStr "https://hook")])]))] ∧
       d_request (sent r) = None.
Proof.
  apply (missing_input_yields_configuration_error "your-api-key"
           [call_setter "webhook" (VObj [("url", VStr "https://hook")])]
           (to_JSON examples.fn)).
  - reflexivity.
  - reflexivity.
  - reflexivity.
Defined.

(** C6 as stated fails: with a webhook configured and no input, [toFile]
    reports the webhook, not the missing file input. *)
Lemma toFile_without_input_reports_webhook :
  ∃ r, toFile (VStr "path/to/output.png") examples.fn
         (chain examples.opti
            [call_setter "webhook" (VObj [("url", VStr "https://hook")])])
       = Ok r ∧
       received2 examples.fn (d_calls (sent r)) = [error_only toFile_with_webhook] ∧
       toFile_with_webhook ≠ no_file_input.
Proof. eexists. split; [reflexivity |]. split; [vm_compute; reflexivity | discriminate]. Qed.

(** C7 at work: [sendRequest] on an upload of the bytes 01 02 03. *)
Lemma buffer_upload_example_throws :
  dispatched
    (set_toJSON (set_upload (VBuffer [x01; x02; x03]) (new "your-api-key")))
    (forward examples.fn) [Complete None (VObj [("success", VBool true)])]
  = with_thrown (Some (TypeError "toSting is not a function")) idle.
Proof.
  apply (buffer_upload_throws_TypeError
           (set_toJSON (set_upload (VBuffer [x01; x02; x03]) (new "your-api-key")))
           (forward examples.fn) [x01; x02; x03]).
  - reflexivity.
  - reflexivity.
  - reflexivity.
Defined.

(** Through the builder the same source is refused earlier: [upload]
    accepts a path or a stream only. *)
Lemma buffer_upload_refused_by_builder :
  d_calls (dispatched
             (chain examples.opti
                [call_upload (VBuffer [x01; x02; x03]); call_toJSON examples.fn])
             (forward examples.fn) [])
  = [error_only upload_requires_file].
Proof. vm_compute. reflexivity. Qed.

(** C8 at work: a malformed destination on a builder without input is
    delivered as the missing input, the check that follows it. *)
Lemma malformed_destination_is_delivered :
  ∃ r, toFile (VNum 123) examples.fn
         (chain (new "your-api-key") [call_setter "resize" (VObj [("width", VNum 100)])])
       = Ok r ∧
       sent r
       = rejected
           (destination_message
              (chain (new "your-api-key")
                 [call_setter "resize" (VObj [("width", VNum 100)])]))
           (forward examples.fn) ∧
       received2 examples.fn (d_calls (sent r))
       = [error_only
            (destination_message
               (chain (new "your-api-key")
                  [call_setter "resize" (VObj [("width", VNum 100)])]))] ∧
       d_thrown (sent r) = None ∧
       d_request (sent r) = None.
Proof.
  apply (proj1 (proj2 (only_missing_callback_is_thrown "your-api-key"
                         [call_setter "resize" (VObj [("width", VNum 100)])]))
           (VNum 123) examples.fn).
  - reflexivity.
  - reflexivity.
Defined.

(** C8 as stated fails: [toFile] with a number as destination does not
    throw; the error reaches the callback. *)
Lemma malformed_destination_is_not_thrown :
  ∃ r, toFile (VNum 123) examples.fn
         (chain examples.opti [call_upload (VStr "path/to/input.jpg")])
       = Ok r ∧
       received2 examples.fn (d_calls (sent r)) = [error_only toFile_requires_destination].
Proof. eexists. split; [reflexivity |]. vm_compute. reflexivity. Qed.

(** C9 at work: the round trip of the specification, the body arriving in
    two chunks. *)
Lemma toBuffer_round_trip :
  d_calls (dispatched
             (chain examples.opti [call_fetch examples.image_url; call_toBuffer examples.fn])
             (forward examples.fn)
             (Response (examples.headers examples.meta_success)
                :: (BodyData 0 <$> [[x01]; [x02; x03]]) ++ [BodyEnd 0]))
  = [mkArgs None (VObj [("success", VBool true)]) (VBuffer [x01; x02; x03])].
Proof.
  apply (toBuffer_returns_concatenated_body
           (chain examples.opti [call_fetch examples.image_url; call_toBuffer examples.fn])
           (forward examples.fn) (examples.headers examples.meta_success)
           (VObj [("success", VBool true)]) [[x01]; [x02; x03]]).
  - vm_compute. reflexivity.
  - vm_compute. reflexivity.
  - vm_compute. reflexivity.
  - vm_compute. reflexivity.
  - vm_compute. reflexivity.
Defined.

(** C10 at work: [optimize(null)]. *)
Lemma optimize_stores_null :
  o_request (optimize VNull examples.opti) !! "optimize" = Some VNull.
Proof.
  apply (setters_store_null_and_ignore_non_objects "optimize" optimize examples.opti VNull).
  unfold setters. apply list_elem_of_In. simpl. tauto.
Defined.

(** ** The further properties at concrete inputs *)

(** X1 at work: [fetch(url).toJSON(fn)] posts to the fetch endpoint. *)
Lemma fetch_posts_to_fetch_endpoint :
  r_url (reqOptions more_examples.fetch_toJSON fetch_url
           (Body (o_request more_examples.fetch_toJSON)))
  = (if o_withUpload more_examples.fetch_toJSON then upload_url else fetch_url).
Proof.
  destruct (@posted_request_follows_transport examples.runtime more_examples.fetch_toJSON
              (forward examples.fn)
              (reqOptions more_examples.fetch_toJSON fetch_url
                 (Body (o_request more_examples.fetch_toJSON)))
              ltac:(vm_compute; reflexivity)) as (_ & _ & Hurl & _).
  exact Hurl.
Defined.

(** X2 at work: a proxy set before the dispatch of
    [fetch(url).toBuffer(fn)]. *)
Lemma proxy_reaches_the_request :
  r_proxy (reqOptions (proxy (VStr "http://proxy:3128") more_examples.fetch_toBuffer)
             fetch_url
             (Body (o_request more_examples.fetch_toBuffer)))
  = (if String.eqb "http://proxy:3128" "" then None else Some "http://proxy:3128").
Proof.
  destruct (@proxy_is_honoured examples.runtime more_examples.fetch_toBuffer (forward examples.fn)
              "http://proxy:3128"
              (reqOptions (proxy (VStr "http://proxy:3128") more_examples.fetch_toBuffer)
                 fetch_url (Body (o_request more_examples.fetch_toBuffer)))
              ltac:(vm_compute; reflexivity)) as [Hp _].
  exact Hp.
Defined.

(** X3 at work: a missing upload file, then the completion of the
    request. *)
Lemma missing_upload_file_wins :
  d_calls (dispatched more_examples.upload_toJSON (forward examples.fn)
             [FileError examples.ENOENT;
              Complete None (VObj [("success", VBool true)])])
  = [error_args examples.ENOENT].
Proof.
  apply (proj1 (@first_error_wins examples.runtime more_examples.upload_toJSON (forward examples.fn)
                  examples.ENOENT [Complete None (VObj [("success", VBool true)])]
                  ltac:(vm_compute; reflexivity))).
  vm_compute. reflexivity.
Defined.

(** X4 at work: [request.post] throws under [toFile]. *)
Lemma post_exception_reaches_toFile_callback :
  d_calls (@sendRequest more_examples.throwing_runtime more_examples.fetch_toFile
             (forward examples.fn))
  = [mkArgs (Some (TypeError "options.uri is a required argument")) VNull VNull].
Proof.
  apply (proj1 (proj2 (proj2 (proj2 (proj2
           (@post_exception_caught_for_binary_only more_examples.throwing_runtime
              more_examples.fetch_toFile (forward examples.fn)
              (TypeError "options.uri is a required argument")
              ltac:(vm_compute; reflexivity) ltac:(vm_compute; reflexivity)
              ltac:(vm_compute; reflexivity))))) ltac:(vm_compute; reflexivity))).
Defined.

(** X5 at work: the header [x-optidash-meta: null]. *)
Lemma null_header_leaves_callback_unfired :
  d_calls (dispatched more_examples.fetch_toBuffer (forward examples.fn)
             [Response (examples.headers "null"); BodyData 0 [x01]; BodyEnd 0;
              RequestError more_examples.ECONNREFUSED])
  = [].
Proof.
  apply (null_metadata_kills_the_listener more_examples.fetch_toBuffer
           (forward examples.fn) (examples.headers "null")
           [BodyData 0 [x01]; BodyEnd 0; RequestError more_examples.ECONNREFUSED]).
  - vm_compute. reflexivity.
  - vm_compute. reflexivity.
Defined.

(** X6 at work: body events before any response. *)
Lemma no_sink_before_response :
  d_sinks (dispatched more_examples.fetch_toFile (forward examples.fn)
             [BodyData 0 [x01]; BodyEnd 0; WsFinish 0])
  = [].
Proof.
  apply (paused_until_response more_examples.fetch_toFile (forward examples.fn)
           [BodyData 0 [x01]; BodyEnd 0; WsFinish 0]).
  - vm_compute. reflexivity.
  - vm_compute. reflexivity.
Defined.

(** X7 at work: a [toFile] round trip, the body arriving in two chunks. *)
Lemma toFile_round_trip :
  d_calls (dispatched more_examples.fetch_toFile (forward examples.fn)
             (Response (examples.headers examples.meta_success)
                :: (BodyData 0 <$> [[x01]; [x02; x03]])
                ++ BodyEnd 0 :: WsFinish 0 :: [WsFinish 0]))
  = [mkArgs None (VObj [("success", VBool true)]) VUndefined].
Proof.
  apply (toFile_completes_on_finish more_examples.fetch_toFile (forward examples.fn)
           (examples.headers examples.meta_success) (VObj [("success", VBool true)])
           [[x01]; [x02; x03]] [WsFinish 0]).
  - vm_compute. reflexivity.
  - vm_compute. reflexivity.
  - vm_compute. reflexivity.
  - vm_compute. reflexivity.
  - vm_compute. reflexivity.
  - vm_compute. reflexivity.
Defined.

(** X8 at work: the destination fails while the body is written. *)
Lemma toFile_write_error :
  d_calls (dispatched more_examples.fetch_toFile (forward examples.fn)
             (Response (examples.headers examples.meta_success)
                :: (BodyData 0 <$> [[x01]])
                ++ WsError 0 examples.ENOENT :: [WsFinish 0]))
  = [mkArgs (Some examples.ENOENT) (VObj [("success", VBool true)]) VUndefined].
Proof.
  apply (toFile_destination_error_carries_metadata more_examples.fetch_toFile
           (forward examples.fn) (examples.headers examples.meta_success)
           (VObj [("success", VBool true)]) [[x01]] examples.ENOENT [WsFinish 0]).
  - vm_compute. reflexivity.
  - vm_compute. reflexivity.
  - vm_compute. reflexivity.
  - vm_compute. reflexivity.
  - vm_compute. reflexivity.
  - vm_compute. reflexivity.
Defined.

(** X9 at work: [resize] twice. *)
Lemma resize_last_call_wins :
  resize (VObj [("width", VNum 100)]) (resize (VObj [("width", VNum 50)]) examples.opti)
  = resize (VObj [("width", VNum 100)]) examples.opti.
Proof.
  destruct (setters_compose "resize" resize "optimize" optimize examples.opti
              (VObj [("width", VNum 50)]) (VObj [("width", VNum 100)]))
    as (_ & _ & Hlast & _).
  - apply list_elem_of_In. simpl. tauto.
  - apply list_elem_of_In. simpl. tauto.
  - reflexivity.
  - reflexivity.
  - exact Hlast.
Defined.

(** X10 at work: [toBuffer] with a webhook, external storage and no input
    reports the storage. *)
Lemma toBuffer_reports_storage_first :
  ∃ r, call_sink (to_Buffer examples.fn)
         (chain (new "your-api-key")
            [call_setter "webhook" (VObj [("url", VStr "https://hook")]);
             call_setter "store" (VObj [("provider", VStr "s3")])])
       = Ok r ∧
       o_errorMessage (this r)
       = sink_precedence (to_Buffer examples.fn)
           (chain (new "your-api-key")
              [call_setter "webhook" (VObj [("url", VStr "https://hook")]);
               call_setter "store" (VObj [("provider", VStr "s3")])]) ∧
       sink_precedence (to_Buffer examples.fn)
         (chain (new "your-api-key")
            [call_setter "webhook" (VObj [("url", VStr "https://hook")]);
             call_setter "store" (VObj [("provider", VStr "s3")])])
       = Some toBuffer_with_store.
Proof.
  eexists. split; [reflexivity |]. split.
  - apply (proj1 (sink_reports_by_precedence "your-api-key"
                    [call_setter "webhook" (VObj [("url", VStr "https://hook")]);
                     call_setter "store" (VObj [("provider", VStr "s3")])]
                    (to_Buffer examples.fn) _ eq_refl)).
  - vm_compute. reflexivity.
Defined.

(** X11 at work: [toJSON] then [toFile] on one builder. *)
Lemma toJSON_then_toFile_is_rejected :
  ∃ m, m ∈ configuration_errors ∧
       sent (mkReturned
               (after (chain (new "your-api-key")
                         [call_fetch examples.image_url; call_toJSON examples.fn])
                  (call_toFile (VStr "path/to/output.png") examples.fn))
               (sendRequest
                  (after (chain (new "your-api-key")
                            [call_fetch examples.image_url; call_toJSON examples.fn])
                     (call_toFile (VStr "path/to/output.png") examples.fn))
                  (forward examples.fn)))
       = rejected m (forward examples.fn) ∧
       d_request
         (sent (mkReturned
                  (after (chain (new "your-api-key")
                            [call_fetch examples.image_url; call_toJSON examples.fn])
                     (call_toFile (VStr "path/to/output.png") examples.fn))
                  (sendRequest
                     (after (chain (new "your-api-key")
                               [call_fetch examples.image_url; call_toJSON examples.fn])
                        (call_toFile (VStr "path/to/output.png") examples.fn))
                     (forward examples.fn)))) = None.
Proof.
  apply (second_sink_is_rejected "your-api-key"
           [call_fetch examples.image_url; call_toJSON examples.fn]
           (to_File (VStr "path/to/output.png") examples.fn)).
  - reflexivity.
  - vm_compute. reflexivity.
Defined.

(** X12 at work: an [upload] of a Buffer, then a valid [upload]. *)
Lemma valid_upload_does_not_clear_the_error :
  ∃ m, m ∈ configuration_errors ∧
       sent (toJSON examples.fn
               (chain (new "your-api-key")
                  ([call_upload (VBuffer [x01; x02; x03])]
                   ++ [call_upload (VStr "path/to/input.jpg")])))
       = rejected m (forward examples.fn) ∧
       d_request
         (sent (toJSON examples.fn
                  (chain (new "your-api-key")
                     ([call_upload (VBuffer [x01; x02; x03])]
                      ++ [call_upload (VStr "path/to/input.jpg")])))) = None.
Proof.
  apply (recorded_error_is_never_cleared "your-api-key"
           [call_upload (VBuffer [x01; x02; x03])]
           [call_upload (VStr "path/to/input.jpg")] (to_JSON examples.fn)).
  - vm_compute. by eexists.
  - reflexivity.
Defined.

(** X13 at work: [toJSON("not a function")] after a valid [fetch]. *)
Lemma toJSON_with_a_string_throws :
  ∃ m, m ∈ [toJSON_requires_callback; one_response_method; no_file_input] ∧
       sent (toJSON (VStr "not a function") (fetch examples.image_url examples.opti))
       = rejected m (forward (VStr "not a function")) ∧
       d_thrown (sent (toJSON (VStr "not a function")
                         (fetch examples.image_url examples.opti)))
       = Some (TypeError "cb is not a function") ∧
       d_request (sent (toJSON (VStr "not a function")
                          (fetch examples.image_url examples.opti))) = None ∧
       received2 (VStr "not a function")
         (d_calls (sent (toJSON (VStr "not a function")
                           (fetch examples.image_url examples.opti)))) = [].
Proof.
  apply (toJSON_without_function_throws (fetch examples.image_url examples.opti)
           (VStr "not a function")).
  reflexivity.
Defined.

(** X14 at work: [upload(path).resize({...}).toFile(path, fn)]. *)
Lemma upload_resize_toFile_posts :
  ∃ q, d_request
         (sendRequest
            (chain (new "your-api-key")
               [call_upload (VStr "path/to/input.jpg");
                call_setter "resize" (VObj [("width", VNum 100)]);
                call_toFile (VStr "path/to/output.png") examples.fn])
            (forward examples.fn)) = Some q ∧
       r_url q = upload_url ∧
       r_headers q = [("X-Optidash-Binary", 1%Z)].
Proof.
  destruct (valid_chain_posts_one_request "your-api-key"
              [call_upload (VStr "path/to/input.jpg");
               call_setter "resize" (VObj [("width", VNum 100)])]
              (to_File (VStr "path/to/output.png") examples.fn)
              (mkReturned
                 (chain (new "your-api-key")
                    [call_upload (VStr "path/to/input.jpg");
                     call_setter "resize" (VObj [("width", VNum 100)]);
                     call_toFile (VStr "path/to/output.png") examples.fn])
                 (sendRequest
                    (chain (new "your-api-key")
                       [call_upload (VStr "path/to/input.jpg");
                        call_setter "resize" (VObj [("width", VNum 100)]);
                        call_toFile (VStr "path/to/output.png") examples.fn])
                    (forward examples.fn))))
    as (_ & _ & _ & Hposts & _).
  - reflexivity.
  - vm_compute. reflexivity.
  - vm_compute. reflexivity.
  - destruct Hposts as (q & Hq & Hurl & _ & _ & Hh & _); [vm_compute; reflexivity |].
    exists q. split; [exact Hq |]. split; [| exact Hh].
    rewrite Hurl. vm_compute. reflexivity.
Defined.

(** The other branch of X14: an upload path with a null byte passes the
    builder and makes [toJSON] throw. *)
Lemma upload_path_with_null_byte_throws :
  sent (toJSON examples.fn
          (upload (VStr (String "a" (String "000" (String "b" EmptyString))))
             examples.opti))
  = with_thrown (Some fs_path_error) idle.
Proof. vm_compute. reflexivity. Qed.

(** X15 at work: [fetch()] without a URL, then a valid [fetch]. *)
Lemma fetch_without_url_is_refused :
  ∃ m, m ∈ configuration_errors ∧
       sent (toJSON examples.fn
               (chain (new "your-api-key")
                  ([] ++ call_fetch VUndefined :: [call_fetch examples.image_url])))
       = rejected m (forward examples.fn) ∧
       d_request
         (sent (toJSON examples.fn
                  (chain (new "your-api-key")
                     ([] ++ call_fetch VUndefined :: [call_fetch examples.image_url]))))
       = None.
Proof.
  apply (malformed_input_is_refused "your-api-key" [] (call_fetch VUndefined)
           [call_fetch examples.image_url] (to_JSON examples.fn)).
  - reflexivity.
  - reflexivity.
Defined.

(** X16 at work: a request error after the destination has finished. *)
Lemma finish_then_error_calls_back_once :
  d_calls (dispatched more_examples.fetch_toFile (forward examples.fn)
             ([Response (examples.headers examples.meta_success); WsFinish 0]
              ++ [RequestError more_examples.ECONNREFUSED; WsFinish 0]))
  = [mkArgs None (VObj [("success", VBool true)]) VUndefined].
Proof.
  apply (proj2 (@callback_at_most_once examples.runtime more_examples.fetch_toFile
                  (forward examples.fn)
                  [Response (examples.headers examples.meta_success); WsFinish 0])).
  vm_compute. reflexivity.
Defined.
